(** * powo_syno: species list -> IPNI identifier -> POWO taxon page -> synonyms

    A shallow embedding of [powo_syno.py] and the properties of its three
    functions: [fetch_ipni_id] (the Resolver), [fetch_synonyms_from_powo]
    (the Extractor) and [main] (the Driver).

    The script talks to the outside (HTTP, the file system, the console, the
    clock).  The embedding threads an abstract [World] through every external
    call and records what the program does in a trace of events, so that
    "is never invoked", "before writing any file" and "sleeps" are statements
    about that trace.  Python exceptions are values of [result]. *)

From Stdlib Require Import List String Ascii ZArith Bool Lia.
Import ListNotations.
Open Scope string_scope.

Set Implicit Arguments.
Set Warnings "-register-all".

(** ** Python values *)

Module Py.

(** A Python [float]: only its truth value is ever observed here. *)
Inductive pyfloat : Type :=
| FNaN
| FInf (negative : bool)
| FFinite (mantissa exponent : Z).

(** The values [response.json()] can return and a DataFrame cell can hold.
    A [str] is a [string] whose characters are code points below 256; a
    [dict] with [str] keys is an association list read at its first match. *)
Inductive pyval : Type :=
| PNone
| PBool (b : bool)
| PInt (z : Z)
| PFloat (f : pyfloat)
| PStr (s : string)
| PList (l : list pyval)
| PDict (d : list (string * pyval)).

(** Exceptions below [Exception]; [exn_msg] is what [str(e)] shows. *)
Inductive exn_class : Type :=
| RequestException | HTTPError | JSONDecodeError
| TypeError | KeyError | IndexError | AttributeError | ValueError
| OSError | OtherException.

Record exn : Type := mkExn { exn_cls : exn_class; exn_msg : string }.

Inductive result (A : Type) : Type :=
| Ok (a : A)
| Raise (e : exn).
Arguments Ok {A} a.
Arguments Raise {A} e.

(** [result] is the monad of an expression that may raise. *)
Class Monad (m : Type -> Type) : Type := {
  ret : forall {A}, A -> m A;
  bind : forall {A B}, m A -> (A -> m B) -> m B
}.

Notation "x <- c ;; k" := (bind c (fun x => k))
  (at level 61, c at next level, right associativity).
Notation "c ;;; k" := (bind c (fun _ => k))
  (at level 61, right associativity).

#[export] Instance result_Monad : Monad result := {
  ret := fun A a => Ok a;
  bind := fun A B r k => match r with Ok a => k a | Raise e => Raise e end
}.

Definition type_name (v : pyval) : string :=
  match v with
  | PNone => "NoneType"
  | PBool _ => "bool"
  | PInt _ => "int"
  | PFloat _ => "float"
  | PStr _ => "str"
  | PList _ => "list"
  | PDict _ => "dict"
  end.

(** [bool(v)] *)
Definition truthy (v : pyval) : bool :=
  match v with
  | PNone => false
  | PBool b => b
  | PInt z => negb (z =? 0)%Z
  | PFloat (FFinite m _) => negb (m =? 0)%Z
  | PFloat _ => true
  | PStr s => negb (s =? EmptyString)
  | PList l => match l with [] => false | _ => true end
  | PDict d => match d with [] => false | _ => true end
  end.

(** *** [str] methods *)

(** [c.isspace()] on the code points below 256. *)
Definition isspace (c : ascii) : bool :=
  let n := nat_of_ascii c in
  (((9 <=? n) && (n <=? 13)) || ((28 <=? n) && (n <=? 32))
   || (n =? 133) || (n =? 160))%nat.

Fixpoint lstrip (s : string) : string :=
  match s with
  | EmptyString => EmptyString
  | String c t => if isspace c then lstrip t else s
  end.

Fixpoint rstrip (s : string) : string :=
  match s with
  | EmptyString => EmptyString
  | String c t =>
      match rstrip t with
      | EmptyString => if isspace c then EmptyString else String c EmptyString
      | t' => String c t'
      end
  end.

(** [s.strip()] *)
Definition strip (s : string) : string := rstrip (lstrip s).

(** [s.split(sep)] for a one-character separator. *)
Fixpoint split (sep : ascii) (s : string) : list string :=
  match s with
  | EmptyString => [EmptyString]
  | String c t =>
      if Ascii.eqb c sep then EmptyString :: split sep t
      else match split sep t with
           | h :: r => String c h :: r
           | [] => [String c EmptyString]
           end
  end.

(** [sep.join(l)] *)
Fixpoint join (sep : string) (l : list string) : string :=
  match l with
  | [] => EmptyString
  | [x] => x
  | x :: r => x ++ sep ++ join sep r
  end.

(** [needle in hay] on two [str]. *)
Fixpoint substr_in (needle hay : string) : bool :=
  prefix needle hay
  || match hay with
     | EmptyString => false
     | String _ t => substr_in needle t
     end.

(** *** Operators, with the exceptions the interpreter raises *)

Definition type_error (msg : string) : exn := mkExn TypeError msg.

Fixpoint assoc (k : string) (d : list (string * pyval)) : option pyval :=
  match d with
  | [] => None
  | (k', v) :: r => if k' =? k then Some v else assoc k r
  end.

(** [k in v] for a [str] key [k] *)
Definition contains (k : string) (v : pyval) : result bool :=
  match v with
  | PDict d => Ok (match assoc k d with Some _ => true | None => false end)
  | PList l =>
      Ok (existsb (fun x => match x with PStr s => s =? k | _ => false end) l)
  | PStr s => Ok (substr_in k s)
  | _ => Raise (type_error ("argument of type '" ++ type_name v
                            ++ "' is not iterable"))
  end.

(** [v[k]] for a [str] key [k] *)
Definition getitem_str (v : pyval) (k : string) : result pyval :=
  match v with
  | PDict d =>
      match assoc k d with
      | Some x => Ok x
      | None => Raise (mkExn KeyError ("'" ++ k ++ "'"))
      end
  | PList _ =>
      Raise (type_error "list indices must be integers or slices, not str")
  | PStr _ => Raise (type_error "string indices must be integers, not 'str'")
  | _ => Raise (type_error ("'" ++ type_name v
                            ++ "' object is not subscriptable"))
  end.

(** [v[0]] *)
Definition getitem_0 (v : pyval) : result pyval :=
  match v with
  | PList l =>
      match l with
      | x :: _ => Ok x
      | [] => Raise (mkExn IndexError "list index out of range")
      end
  | PStr s =>
      match s with
      | String c _ => Ok (PStr (String c EmptyString))
      | EmptyString => Raise (mkExn IndexError "string index out of range")
      end
  | PDict _ => Raise (mkExn KeyError "0")
  | _ => Raise (type_error ("'" ++ type_name v
                            ++ "' object is not subscriptable"))
  end.

(** [len(v)] *)
Definition len (v : pyval) : result Z :=
  match v with
  | PStr s => Ok (Z.of_nat (String.length s))
  | PList l => Ok (Z.of_nat (List.length l))
  | PDict d => Ok (Z.of_nat (List.length d))
  | _ => Raise (type_error ("object of type '" ++ type_name v
                            ++ "' has no len()"))
  end.

Definition no_attribute (v : pyval) (a : string) : exn :=
  mkExn AttributeError
        ("'" ++ type_name v ++ "' object has no attribute '" ++ a ++ "'").

(** [v.split(":")] *)
Definition py_split_colon (v : pyval) : result (list string) :=
  match v with
  | PStr s => Ok (split ":" s)
  | _ => Raise (no_attribute v "split")
  end.

(** [v.strip()] *)
Definition py_strip (v : pyval) : result string :=
  match v with
  | PStr s => Ok (strip s)
  | _ => Raise (no_attribute v "strip")
  end.

(** [l[-1]] on a list of [str] *)
Definition getitem_last (l : list string) : result string :=
  match l with
  | [] => Raise (mkExn IndexError "list index out of range")
  | x :: r => Ok (List.last r x)
  end.

End Py.
Import Py.

(** ** BeautifulSoup documents *)

Module Soup.

(** The value of an attribute: one string, or the list of tokens of a
    multi-valued attribute such as [class]. *)
Inductive attr : Type :=
| AttrStr (s : string)
| AttrList (l : list string).

(** A parsed document.  [Comment] stands for every string container that
    [.text] skips. *)
Inductive node : Type :=
| NavigableString (s : string)
| Comment (s : string)
| Tag (name : string) (attrs : list (string * attr)) (contents : list node).

(** [tag.descendants]: every node below the tag, in document order. *)
Fixpoint descendants (n : node) : list node :=
  match n with
  | Tag _ _ cs =>
      (fix below (l : list node) : list node :=
         match l with
         | [] => []
         | c :: r => c :: descendants c ++ below r
         end) cs
  | _ => []
  end.

(** Induction on a document, with the property known of the children. *)
Section NodeInduction.

Variable P : node -> Prop.
Hypothesis Hstring : forall s, P (NavigableString s).
Hypothesis Hcomment : forall s, P (Comment s).
Hypothesis Htag : forall name attrs cs, Forall P cs -> P (Tag name attrs cs).

Fixpoint node_children_ind (n : node) : P n :=
  match n with
  | NavigableString s => Hstring s
  | Comment s => Hcomment s
  | Tag name attrs cs =>
      Htag name attrs
        ((fix all (l : list node) : Forall P l :=
            match l with
            | [] => Forall_nil P
            | c :: r => @Forall_cons _ P c r (node_children_ind c) (all r)
            end) cs)
  end.

End NodeInduction.

(** [Below d n]: the node [d] lies somewhere under the tag [n]. *)
Inductive Below (d : node) : node -> Prop :=
| Below_child name attrs cs :
    In d cs -> Below d (Tag name attrs cs)
| Below_deeper name attrs cs c :
    In c cs -> Below d c -> Below d (Tag name attrs cs).

Fixpoint get_attr (k : string) (a : list (string * attr)) : option attr :=
  match a with
  | [] => None
  | (k', v) :: r => if k' =? k then Some v else get_attr k r
  end.

(** How a search string is matched against an attribute value: against the
    string itself, or against any token of a multi-valued attribute or the
    tokens joined by a space. *)
Definition attr_matches (v : option attr) (wanted : string) : bool :=
  match v with
  | None => false
  | Some (AttrStr s) => s =? wanted
  | Some (AttrList l) =>
      existsb (fun s => s =? wanted) l || (join " " l =? wanted)
  end.

(** The filter of [find(name, key=wanted)]. *)
Definition tag_matches (name key wanted : string) (n : node) : bool :=
  match n with
  | Tag nm a _ => (nm =? name) && attr_matches (get_attr key a) wanted
  | _ => false
  end.

(** The filter of [find_all(name)]. *)
Definition tag_named (name : string) (n : node) : bool :=
  match n with
  | Tag nm _ _ => nm =? name
  | _ => false
  end.

(** [tag.find(name, key=wanted)]: the first match below [tag], or [None]. *)
Definition find (n : node) (name key wanted : string) : option node :=
  List.find (tag_matches name key wanted) (descendants n).

(** [tag.find_all(name)] *)
Definition find_all (n : node) (name : string) : list node :=
  filter (tag_named name) (descendants n).

(** [tag.text]: the strings below the tag, concatenated. *)
Definition text (n : node) : string :=
  String.concat EmptyString
    (flat_map (fun d => match d with NavigableString s => [s] | _ => [] end)
              (descendants n)).

End Soup.

(** ** requests and pandas *)

Record request : Type := mkRequest {
  req_url : string;
  req_params : list (string * string);
  req_headers : list (string * string);
  req_timeout : Z
}.

(** What the program reads of a [requests.Response]: the status, the body
    and the outcome of [response.json()]. *)
Record response : Type := mkResponse {
  status_code : Z;
  resp_text : string;
  resp_json : result pyval
}.

(** [response.raise_for_status()] *)
Definition raise_for_status (r : response) : result unit :=
  if ((400 <=? status_code r) && (status_code r <? 600))%Z
  then Raise (mkExn HTTPError "HTTP error status")
  else Ok tt.

(** A DataFrame: the column labels and the rows of cells. *)
Record DataFrame : Type := mkDataFrame {
  columns : list string;
  values : list (list pyval)
}.

(** A row as [iterrows] yields it: the cells under their labels. *)
Definition Series : Type := list (string * pyval).

Definition iterrows (df : DataFrame) : list Series :=
  map (fun cells => combine (columns df) cells) (values df).

(** [row[label]] *)
Definition loc (row : Series) (label : string) : result pyval :=
  match assoc label row with
  | Some v => Ok v
  | None => Raise (mkExn KeyError ("'" ++ label ++ "'"))
  end.

(** One element of [results]: the dict with the keys 'Species', 'POWO_URL'
    and 'Synonyms'. *)
Record ResultRecord : Type := mkResult {
  Species : string;
  POWO_URL : string;
  Synonyms : string
}.

(** [pd.DataFrame(results)]: the columns are the keys of the dicts, and
    there is none when the list is empty. *)
Definition pd_DataFrame (results : list ResultRecord) : DataFrame :=
  {| columns := match results with
                | [] => []
                | _ => ["Species"; "POWO_URL"; "Synonyms"]
                end;
     values := map (fun r => [PStr (Species r); PStr (POWO_URL r);
                              PStr (Synonyms r)]) results |}.

(** ** Effects *)

(** What the program does to the outside, in the order it does it.  The two
    [Call_] events mark the entry into the Resolver and the Extractor. *)
Inductive event : Type :=
| Call_fetch_ipni_id (species_name : string)
| Call_fetch_synonyms_from_powo (powo_url : string)
| HttpGet (r : request)
| Print (line : string)
| Sleep (seconds : Z)
| ReadCsv (path : string)
| ToCsv (df : DataFrame) (path : string).

(** A computation returns or raises, moves the world and emits events. *)
Definition M (World A : Type) : Type :=
  World -> result A * World * list event.

Section Effects.

Variable World : Type.

#[global] Instance M_Monad : Monad (M World) := {
  ret := fun A a w => (Ok a, w, []);
  bind := fun A B m k w =>
    match m w with
    | (Ok a, w1, t1) => let '(r, w2, t2) := k a w1 in (r, w2, (t1 ++ t2)%list)
    | (Raise e, w1, t1) => (Raise e, w1, t1)
    end
}.

Definition raise {A} (e : exn) : M World A := fun w => (Raise e, w, []).

(** An expression without effects, inside a computation. *)
Definition lift {A} (r : result A) : M World A := fun w => (r, w, []).

Definition emit (e : event) : M World unit := fun w => (Ok tt, w, [e]).

(** [try: body except Exception as e: handler(e)] *)
Definition try_except {A} (body : M World A) (handler : exn -> M World A)
  : M World A :=
  fun w =>
    match body w with
    | (Ok a, w1, t1) => (Ok a, w1, t1)
    | (Raise e, w1, t1) =>
        let '(r, w2, t2) := handler e w1 in (r, w2, (t1 ++ t2)%list)
    end.

Definition print (line : string) : M World unit := emit (Print line).

Definition time_sleep (seconds : Z) : M World unit := emit (Sleep seconds).

Definition value {A} (o : result A * World * list event) : result A :=
  fst (fst o).
Definition world_after {A} (o : result A * World * list event) : World :=
  snd (fst o).
Definition trace {A} (o : result A * World * list event) : list event :=
  snd o.

End Effects.

Arguments raise {World A} e.
Arguments lift {World A} r.
Arguments emit {World} e.
Arguments print {World} line.
Arguments time_sleep {World} seconds.

(** ** The program *)

Definition base_url : string := "https://www.ipni.org/api/1/search".

Definition user_agent : string :=
  "Mozilla/5.0 (Windows NT 10.0; Win64; x64) AppleWebKit/537.36 (KHTML, like Gecko) Chrome/91.0.4472.124 Safari/537.36".

Definition powo_prefix : string :=
  "https://powo.science.kew.org/taxon/urn:lsid:ipni.org:names:".

(** [data and "results" in data and len(data["results"]) > 0] as the [if]
    reads it. *)
Definition has_results (data : pyval) : result bool :=
  if truthy data then
    c <- contains "results" data ;;
    if c : bool then
      r <- getitem_str data "results" ;;
      n <- len r ;;
      ret (0 <? n)%Z
    else ret false
  else ret false.

(** [data["results"][0]["id"].split(":")[-1]] *)
Definition first_id (data : pyval) : result string :=
  r <- getitem_str data "results" ;;
  first <- getitem_0 r ;;
  id <- getitem_str first "id" ;;
  parts <- py_split_colon id ;;
  getitem_last parts.

(** [bool(ipni_id)]: false of [None] and of the empty string. *)
Definition id_truthy (ipni_id : option string) : bool :=
  match ipni_id with
  | None => false
  | Some s => negb (s =? EmptyString)
  end.

(** [f"{ipni_id}"] *)
Definition format_id (ipni_id : option string) : string :=
  match ipni_id with
  | None => "None"
  | Some s => s
  end.

(** ['; '.join(synonyms) if synonyms else "None"]: [None] and the empty
    list are both false. *)
Definition synonyms_field (synonyms : option (list string)) : string :=
  match synonyms with
  | Some (x :: r) => join "; " (x :: r)
  | _ => "None"
  end.

Definition not_found (species_name : string) : ResultRecord :=
  {| Species := species_name; POWO_URL := "Not Found"; Synonyms := "None" |}.

Definition ipni_request (species_name : string) : request :=
  {| req_url := base_url;
     req_params := [("q", species_name); ("type", "names")];
     req_headers := [];
     req_timeout := 10 |}.

Definition powo_request (powo_url : string) : request :=
  {| req_url := powo_url;
     req_params := [];
     req_headers := [("User-Agent", user_agent)];
     req_timeout := 10 |}.

(** ** Reading an answer and a page *)

(** The answer of the registry holds a first result whose id is [id]. *)
Definition first_result_id (data : pyval) (id : string) : Prop :=
  exists d first rest,
    data = PDict d
    /\ assoc "results" d = Some (PList (first :: rest))
    /\ getitem_str first "id" = Ok (PStr id).

(** The filters of the two searches of the Extractor. *)
Definition is_synonyms_section : Soup.node -> bool :=
  Soup.tag_matches "section" "id" "synonyms".

Definition is_synonym_list : Soup.node -> bool :=
  Soup.tag_matches "ul" "class" "c-synonym-list".

(** The document holds no synonyms section. *)
Definition no_synonyms_section (soup : Soup.node) : Prop :=
  forall d, Soup.Below d soup -> is_synonyms_section d = false.

(** The document holds synonyms sections, and none of them holds a synonym
    list. *)
Definition no_synonym_list (soup : Soup.node) : Prop :=
  (exists sec, Soup.Below sec soup /\ is_synonyms_section sec = true)
  /\ forall sec, Soup.Below sec soup -> is_synonyms_section sec = true ->
                 forall u, Soup.Below u sec -> is_synonym_list u = false.

(** The ways a call of the Resolver or of the Extractor fails. *)
Inductive failure : Type :=
| NetworkError
| ErrorStatus
| MalformedBody
| MissingResults
| EmptyResults
| MissingSection
| MissingList.

(** The failures met without an exception being raised. *)
Definition silent (f : failure) : bool :=
  match f with
  | MissingResults | EmptyResults | MissingSection | MissingList => true
  | NetworkError | ErrorStatus | MalformedBody => false
  end.

(** The answer [a] to the request of the Resolver is the failure [f]. *)
Definition resolver_fails (f : failure) (a : result response) : Prop :=
  match f, a with
  | NetworkError, Raise _ => True
  | ErrorStatus, Ok r => (400 <= status_code r < 600)%Z
  | MalformedBody, Ok r =>
      raise_for_status r = Ok tt /\ exists e, resp_json r = Raise e
  | MissingResults, Ok r =>
      raise_for_status r = Ok tt
      /\ exists d, resp_json r = Ok (PDict d) /\ assoc "results" d = None
  | EmptyResults, Ok r =>
      raise_for_status r = Ok tt
      /\ exists d, resp_json r = Ok (PDict d)
                   /\ assoc "results" d = Some (PList [])
  | _, _ => False
  end.

(** A trace in which a line was printed. *)
Definition diagnosed (t : list event) : Prop := exists l, In (Print l) t.

(** ** Reading a trace and a table *)

(** The tables written, with their paths. *)
Definition written (t : list event) : list (DataFrame * string) :=
  flat_map (fun e => match e with ToCsv df p => [(df, p)] | _ => [] end) t.

(** The URLs the Extractor was called on. *)
Definition extractor_calls (t : list event) : list string :=
  flat_map (fun e => match e with
                     | Call_fetch_synonyms_from_powo u => [u]
                     | _ => []
                     end) t.

(** The names the Resolver was called on. *)
Definition resolver_calls (t : list event) : list string :=
  flat_map (fun e => match e with
                     | Call_fetch_ipni_id n => [n]
                     | _ => []
                     end) t.

(** The requests sent. *)
Definition requests (t : list event) : list request :=
  flat_map (fun e => match e with HttpGet r => [r] | _ => [] end) t.

(** The durations slept. *)
Definition sleeps (t : list event) : list Z :=
  flat_map (fun e => match e with Sleep n => [n] | _ => [] end) t.

(** The lines printed. *)
Definition printed (t : list event) : list string :=
  flat_map (fun e => match e with Print l => [l] | _ => [] end) t.

(** The trace of a turn of the loop that ended in [continue]. *)
Definition short_turn (species_name : string) (d : list event) : list event :=
  [Print ("Processing species: " ++ species_name);
   Call_fetch_ipni_id species_name;
   HttpGet (ipni_request species_name)]
  ++ d ++ [Print ("No IPNI ID found for " ++ species_name)].

(** The trace of a turn of the loop that went to the end. *)
Definition full_turn (species_name powo_url : string) (d1 d2 : list event)
  : list event :=
  [Print ("Processing species: " ++ species_name);
   Call_fetch_ipni_id species_name;
   HttpGet (ipni_request species_name)]
  ++ d1
  ++ [Print ("Constructed POWO URL: " ++ powo_url);
      Call_fetch_synonyms_from_powo powo_url;
      HttpGet (powo_request powo_url)]
  ++ d2 ++ [Sleep 2].

(** Nothing, or one printed line. *)
Definition diagnostics (d : list event) : Prop :=
  d = [] \/ exists l, d = [Print l].

(** The table has a column of that label. *)
Definition has_column (label : string) (df : DataFrame) : Prop :=
  In label (columns df).

(** The cell of the row under 'Species' is text. *)
Definition species_is_text (row : Series) : Prop :=
  exists s, loc row "Species" = Ok (PStr s).

(** [row['Species'].strip()] *)
Definition species_name_of (row : Series) : result string :=
  cell <- loc row "Species" ;;
  py_strip cell.

(** A run that wrote [output] once, with one record for each row of [df],
    in the order of the rows. *)
Definition one_record_per_row (df : DataFrame) (output : string)
  (t : list event) : Prop :=
  exists recs,
    written t = [(pd_DataFrame recs, output)]
    /\ List.length recs = List.length (values df)
    /\ map (fun r => Ok (Species r)) recs
       = map species_name_of (iterrows df).

(** ** Reading strings, records and more of a trace *)

(** The string holds a colon. *)
Fixpoint has_colon (s : string) : bool :=
  match s with
  | EmptyString => false
  | String c t => Ascii.eqb c ":" || has_colon t
  end.

(** [s.split(":")[-1]] *)
Definition last_segment (s : string) : string :=
  match split ":" s with
  | x :: r => List.last r x
  | [] => EmptyString
  end.

Definition starts_with_space (s : string) : bool :=
  match s with
  | EmptyString => false
  | String c _ => isspace c
  end.

Fixpoint ends_with_space (s : string) : bool :=
  match s with
  | EmptyString => false
  | String c EmptyString => isspace c
  | String _ t => ends_with_space t
  end.

(** No whitespace at either end. *)
Definition trimmed (s : string) : Prop :=
  starts_with_space s = false /\ ends_with_space s = false.

(** The URL a record was built from, if it was. *)
Definition record_url (r : ResultRecord) : list string :=
  if POWO_URL r =? "Not Found" then [] else [POWO_URL r].

(** A record holds the two sentinels, or the URL of a non-empty Identifier
    without colon. *)
Definition sentinel_or_url (r : ResultRecord) : Prop :=
  (POWO_URL r = "Not Found" /\ Synonyms r = "None")
  \/ exists id, id <> EmptyString /\ has_colon id = false
                /\ POWO_URL r = powo_prefix ++ id.

(** The requests a record stands for. *)
Definition record_requests (r : ResultRecord) : list request :=
  ipni_request (Species r) :: map powo_request (record_url r).

(** The paths read. *)
Definition reads (t : list event) : list string :=
  flat_map (fun e => match e with ReadCsv p => [p] | _ => [] end) t.

(** The cell is not text. *)
Definition not_text (cell : pyval) : Prop := forall s, cell <> PStr s.

(** ** A scripted outside

    A world for running the program on concrete inputs: the state counts the
    requests made, the registry and the page answer what they are told to. *)

Module Mock.

Definition World : Type := nat.

Definition requests_get (registry page : result response)
  : request -> World -> result response * World :=
  fun r n => (if req_url r =? base_url then registry else page, S n).

Definition BeautifulSoup (doc : result Soup.node)
  : string -> string -> result Soup.node :=
  fun _ _ => doc.

Definition read_csv (df : result DataFrame)
  : string -> World -> result DataFrame * World :=
  fun _ n => (df, n).

Definition to_csv : DataFrame -> string -> World -> result unit * World :=
  fun _ _ n => (Ok tt, n).

Definition json_response (status : Z) (v : pyval) : response :=
  {| status_code := status; resp_text := EmptyString; resp_json := Ok v |}.

Definition html_response (status : Z) (body : string) : response :=
  {| status_code := status;
     resp_text := body;
     resp_json := Raise (mkExn JSONDecodeError
                               "Expecting value: line 1 column 1 (char 0)") |}.

Definition connection_error : exn :=
  mkExn RequestException "Connection refused".

(** [{"results": [{"id": id}]}] *)
Definition registry_hit (id : string) : pyval :=
  PDict [("results", PList [PDict [("id", PStr id)]])].

(** A taxon page whose synonym list holds the given items. *)
Definition taxon_page (items : list string) : Soup.node :=
  Soup.Tag "[document]" []
    [Soup.Tag "html" []
       [Soup.Tag "body" []
          [Soup.Tag "h1" [] [Soup.NavigableString "Taxon"];
           Soup.Tag "section" [("id", Soup.AttrStr "synonyms")]
             [Soup.Tag "h2" [] [Soup.NavigableString "Synonyms"];
              Soup.Tag "ul" [("class", Soup.AttrList ["c-synonym-list"])]
                (map (fun s => Soup.Tag "li" []
                                 [Soup.NavigableString (" " ++ s ++ " ")])
                     items)]]]].

(** A page without the synonyms section. *)
Definition bare_page : Soup.node :=
  Soup.Tag "[document]" []
    [Soup.Tag "html" []
       [Soup.Tag "body" [] [Soup.Tag "h1" [] [Soup.NavigableString "Taxon"]]]].

(** A page whose synonyms section holds no list. *)
Definition listless_page : Soup.node :=
  Soup.Tag "[document]" []
    [Soup.Tag "section" [("id", Soup.AttrStr "synonyms")]
       [Soup.Tag "p" [] [Soup.NavigableString "No synonyms"]]].

Definition table (names : list pyval) : DataFrame :=
  {| columns := ["Species"; "Family"];
     values := map (fun n => [n; PStr "Rosaceae"]) names |}.

(** A row of such a table. *)
Definition row (name : pyval) : Series :=
  [("Species", name); ("Family", PStr "Rosaceae")].

(** A table without the column 'Species'. *)
Definition nameless_table : DataFrame :=
  {| columns := ["Name"; "Family"];
     values := [[PStr "Rosa canina"; PStr "Rosaceae"]] |}.

(** The registry knows the name under [id]; the page lists [items]. *)
Definition known (id : string) (items : list string)
  : (request -> World -> result response * World)
    * (string -> string -> result Soup.node) :=
  (requests_get (Ok (json_response 200 (registry_hit id)))
                (Ok (html_response 200 "<html>...</html>")),
   BeautifulSoup (Ok (taxon_page items))).

(** The registry answers [{}]; the page has no synonyms section. *)
Definition unknown
  : (request -> World -> result response * World)
    * (string -> string -> result Soup.node) :=
  (requests_get (Ok (json_response 200 (PDict [])))
                (Ok (html_response 200 "<html>...</html>")),
   BeautifulSoup (Ok bare_page)).

(** The registry knows the name; the page cannot be fetched. *)
Definition page_down (id : string)
  : (request -> World -> result response * World)
    * (string -> string -> result Soup.node) :=
  (requests_get (Ok (json_response 200 (registry_hit id)))
                (Raise connection_error),
   BeautifulSoup (Ok bare_page)).

(** The registry answers with status 503. *)
Definition registry_down
  : (request -> World -> result response * World)
    * (string -> string -> result Soup.node) :=
  (requests_get (Ok (json_response 503 PNone)) (Raise connection_error),
   BeautifulSoup (Ok bare_page)).

End Mock.

Section Program.

(** The outside: its state, and what the libraries answer in a state. *)
Variable World : Type.
Variable requests_get : request -> World -> result response * World.
Variable BeautifulSoup : string -> string -> result Soup.node.
Variable read_csv : string -> World -> result DataFrame * World.
Variable to_csv : DataFrame -> string -> World -> result unit * World.

Definition get (r : request) : M World response :=
  fun w => let '(x, w1) := requests_get r w in (x, w1, [HttpGet r]).

Definition pd_read_csv (path : string) : M World DataFrame :=
  fun w => let '(x, w1) := read_csv path w in (x, w1, [ReadCsv path]).

Definition df_to_csv (df : DataFrame) (path : string) : M World unit :=
  fun w => let '(x, w1) := to_csv df path w in (x, w1, [ToCsv df path]).

(** *** The Resolver *)

Definition fetch_ipni_id (species_name : string) : M World (option string) :=
  emit (Call_fetch_ipni_id species_name) ;;;
  try_except
    (response <- get (ipni_request species_name) ;;
     lift (raise_for_status response) ;;;
     data <- lift (resp_json response) ;;
     found <- lift (has_results data) ;;
     if found : bool then
       ipni_id <- lift (first_id data) ;;
       ret (Some ipni_id)
     else ret None)
    (fun e =>
       print ("Error retrieving IPNI ID for " ++ species_name ++ ": "
              ++ exn_msg e) ;;;
       ret None).

(** What the [try] block of [fetch_ipni_id] computes from a response. *)
Definition ipni_id_of_response (response : response)
  : result (option string) :=
  raise_for_status response ;;;
  data <- resp_json response ;;
  found <- has_results data ;;
  if found : bool then
    ipni_id <- first_id data ;;
    ret (Some ipni_id)
  else ret None.

Definition ipni_diagnostic (species_name : string) (e : exn) : event :=
  Print ("Error retrieving IPNI ID for " ++ species_name ++ ": "
         ++ exn_msg e).

(** *** The Extractor *)

Definition fetch_synonyms_from_powo (powo_url : string)
  : M World (option (list string)) :=
  emit (Call_fetch_synonyms_from_powo powo_url) ;;;
  try_except
    (response <- get (powo_request powo_url) ;;
     lift (raise_for_status response) ;;;
     soup <- lift (BeautifulSoup (resp_text response) "html.parser") ;;
     match Soup.find soup "section" "id" "synonyms" with
     | None => ret None
     | Some synonyms_section =>
         match Soup.find synonyms_section "ul" "class" "c-synonym-list" with
         | None => ret None
         | Some synonyms_list =>
             ret (Some (map (fun li => strip (Soup.text li))
                            (Soup.find_all synonyms_list "li")))
         end
     end)
    (fun e =>
       print ("Error fetching synonyms from " ++ powo_url ++ ": "
              ++ exn_msg e) ;;;
       ret None).

(** What [fetch_synonyms_from_powo] reads in a parsed page. *)
Definition synonyms_of_soup (soup : Soup.node) : option (list string) :=
  match Soup.find soup "section" "id" "synonyms" with
  | None => None
  | Some synonyms_section =>
      match Soup.find synonyms_section "ul" "class" "c-synonym-list" with
      | None => None
      | Some synonyms_list =>
          Some (map (fun li => strip (Soup.text li))
                    (Soup.find_all synonyms_list "li"))
      end
  end.

(** What its [try] block computes from a response. *)
Definition synonyms_of_response (response : response)
  : result (option (list string)) :=
  raise_for_status response ;;;
  soup <- BeautifulSoup (resp_text response) "html.parser" ;;
  ret (synonyms_of_soup soup).

Definition powo_diagnostic (powo_url : string) (e : exn) : event :=
  Print ("Error fetching synonyms from " ++ powo_url ++ ": " ++ exn_msg e).

(** *** The Driver *)

(** The body of the [for] loop, on the list [results] it appends to; the
    first branch is the one that ends in [continue]. *)
Definition loop_body (row : Series) (results : list ResultRecord)
  : M World (list ResultRecord) :=
  cell <- lift (loc row "Species") ;;
  species_name <- lift (py_strip cell) ;;
  print ("Processing species: " ++ species_name) ;;;
  ipni_id <- fetch_ipni_id species_name ;;
  if negb (id_truthy ipni_id) then
    print ("No IPNI ID found for " ++ species_name) ;;;
    ret (results ++ [not_found species_name])%list
  else
    let powo_url := powo_prefix ++ format_id ipni_id in
    print ("Constructed POWO URL: " ++ powo_url) ;;;
    synonyms <- fetch_synonyms_from_powo powo_url ;;
    let results :=
      (results ++ [{| Species := species_name;
                      POWO_URL := powo_url;
                      Synonyms := synonyms_field synonyms |}])%list in
    time_sleep 2 ;;;
    ret results.

(** What the Resolver and the Extractor hand back to the Driver in a world
    ([None] standing in for an exception, which they never raise, see
    [fetch_ipni_id_total] and [fetch_synonyms_from_powo_total]). *)
Definition resolved (species_name : string) (w : World) : option string :=
  match value (fetch_ipni_id species_name w) with
  | Ok id => id
  | Raise _ => None
  end.

Definition extracted (powo_url : string) (w : World) : option (list string) :=
  match value (fetch_synonyms_from_powo powo_url w) with
  | Ok syn => syn
  | Raise _ => None
  end.

Fixpoint for_rows (rows : list Series) (results : list ResultRecord)
  : M World (list ResultRecord) :=
  match rows with
  | [] => ret results
  | row :: rest =>
      results' <- loop_body row results ;;
      for_rows rest results'
  end.

Definition main (input_csv output_csv : string) : M World unit :=
  species_df <- pd_read_csv input_csv ;;
  if negb (existsb (fun c => c =? "Species") (columns species_df)) then
    raise (mkExn ValueError
                 "The input file must contain a 'Species' column.")
  else
    results <- for_rows (iterrows species_df) [] ;;
    df_to_csv (pd_DataFrame results) output_csv ;;;
    print ("Results saved to " ++ output_csv).

(** The answer [a] to the request of the Extractor is the failure [f]. *)
Definition extractor_fails (f : failure) (a : result response) : Prop :=
  match f, a with
  | NetworkError, Raise _ => True
  | ErrorStatus, Ok r => (400 <= status_code r < 600)%Z
  | MalformedBody, Ok r =>
      raise_for_status r = Ok tt
      /\ exists e, BeautifulSoup (resp_text r) "html.parser" = Raise e
  | MissingSection, Ok r =>
      raise_for_status r = Ok tt
      /\ exists soup, BeautifulSoup (resp_text r) "html.parser" = Ok soup
                      /\ no_synonyms_section soup
  | MissingList, Ok r =>
      raise_for_status r = Ok tt
      /\ exists soup, BeautifulSoup (resp_text r) "html.parser" = Ok soup
                      /\ no_synonym_list soup
  | _, _ => False
  end.

(** ** Runs of the Resolver and the Extractor *)

Lemma fetch_ipni_id_run (species_name : string) (w : World) :
  fetch_ipni_id species_name w =
  let r := ipni_request species_name in
  match requests_get r w with
  | (Ok response, w1) =>
      match ipni_id_of_response response with
      | Ok id => (Ok id, w1, [Call_fetch_ipni_id species_name; HttpGet r])
      | Raise e =>
          (Ok None, w1, [Call_fetch_ipni_id species_name; HttpGet r;
                         ipni_diagnostic species_name e])
      end
  | (Raise e, w1) =>
      (Ok None, w1, [Call_fetch_ipni_id species_name; HttpGet r;
                     ipni_diagnostic species_name e])
  end.
Proof.
  unfold fetch_ipni_id, ipni_id_of_response, try_except, get, lift, print,
    emit, ipni_diagnostic.
  cbn -[first_id has_results raise_for_status].
  destruct (requests_get (ipni_request species_name) w) as [[response|e] w1];
    [|reflexivity].
  destruct (raise_for_status response) as [[]|e]; [|reflexivity].
  destruct (resp_json response) as [data|e]; [|reflexivity].
  destruct (has_results data) as [[|]|e]; try reflexivity.
  destruct (first_id data) as [id|e]; reflexivity.
Qed.

Lemma fetch_synonyms_from_powo_run (powo_url : string) (w : World) :
  fetch_synonyms_from_powo powo_url w =
  let r := powo_request powo_url in
  match requests_get r w with
  | (Ok response, w1) =>
      match synonyms_of_response response with
      | Ok syn =>
          (Ok syn, w1, [Call_fetch_synonyms_from_powo powo_url; HttpGet r])
      | Raise e =>
          (Ok None, w1, [Call_fetch_synonyms_from_powo powo_url; HttpGet r;
                         powo_diagnostic powo_url e])
      end
  | (Raise e, w1) =>
      (Ok None, w1, [Call_fetch_synonyms_from_powo powo_url; HttpGet r;
                     powo_diagnostic powo_url e])
  end.
Proof.
  unfold fetch_synonyms_from_powo, synonyms_of_response, synonyms_of_soup,
    try_except, get, lift, print, emit, powo_diagnostic.
  cbn -[Soup.find Soup.find_all raise_for_status].
  destruct (requests_get (powo_request powo_url) w) as [[response|e] w1];
    [|reflexivity].
  destruct (raise_for_status response) as [[]|e]; [|reflexivity].
  destruct (BeautifulSoup (resp_text response) "html.parser") as [soup|e];
    [|reflexivity].
  destruct (Soup.find soup "section" "id" "synonyms") as [sec|];
    [|reflexivity].
  destruct (Soup.find sec "ul" "class" "c-synonym-list"); reflexivity.
Qed.

(** The Resolver never raises. *)
Lemma fetch_ipni_id_total (species_name : string) (w : World) :
  value (fetch_ipni_id species_name w) = Ok (resolved species_name w).
Proof.
  unfold resolved. rewrite fetch_ipni_id_run. cbv zeta.
  destruct (requests_get (ipni_request species_name) w) as [[response|e] w1];
    [destruct (ipni_id_of_response response)|]; reflexivity.
Qed.

(** The Extractor never raises. *)
Lemma fetch_synonyms_from_powo_total (powo_url : string) (w : World) :
  value (fetch_synonyms_from_powo powo_url w) = Ok (extracted powo_url w).
Proof.
  unfold extracted. rewrite fetch_synonyms_from_powo_run. cbv zeta.
  destruct (requests_get (powo_request powo_url) w) as [[response|e] w1];
    [destruct (synonyms_of_response response)|]; reflexivity.
Qed.

Lemma outcome_eta {A} (o : result A * World * list event) (a : A) :
  value o = Ok a -> o = (Ok a, world_after o, trace o).
Proof.
  destruct o as [[r w] t]; unfold value; cbn. intros ->. reflexivity.
Qed.

(** ** One turn of the loop *)

Lemma loop_body_run (row : Series) (results : list ResultRecord) (w : World) :
  loop_body row results w =
  match species_name_of row with
  | Raise e => (Raise e, w, [])
  | Ok species_name =>
      let o1 := fetch_ipni_id species_name w in
      let ipni_id := resolved species_name w in
      if negb (id_truthy ipni_id) then
        (Ok (results ++ [not_found species_name])%list,
         world_after o1,
         Print ("Processing species: " ++ species_name)
           :: trace o1
           ++ [Print ("No IPNI ID found for " ++ species_name)])%list
      else
        let powo_url := powo_prefix ++ format_id ipni_id in
        let o2 := fetch_synonyms_from_powo powo_url (world_after o1) in
        (Ok (results
             ++ [{| Species := species_name;
                    POWO_URL := powo_url;
                    Synonyms :=
                      synonyms_field (extracted powo_url (world_after o1)) |}])%list,
         world_after o2,
         Print ("Processing species: " ++ species_name)
           :: trace o1
           ++ Print ("Constructed POWO URL: " ++ powo_url)
           :: trace o2 ++ [Sleep 2])%list
  end.
Proof.
  unfold loop_body, species_name_of.
  destruct (loc row "Species") as [cell|e]; [|reflexivity].
  cbn [bind result_Monad M_Monad lift].
  destruct (py_strip cell) as [species_name|e]; [|reflexivity].
  cbv zeta.
  pose proof (fetch_ipni_id_total species_name w) as T1.
  unfold lift, print, emit, time_sleep, resolved in *.
  cbn -[fetch_ipni_id fetch_synonyms_from_powo id_truthy powo_prefix
        String.append].
  destruct (fetch_ipni_id species_name w) as [[[ipni_id|e] w1] t1];
    [clear T1 | discriminate T1].
  cbn [value world_after trace fst snd].
  destruct (id_truthy ipni_id); cbn [negb]; [|reflexivity].
  pose proof (fetch_synonyms_from_powo_total
                (powo_prefix ++ format_id ipni_id) w1) as T2.
  unfold extracted in *.
  cbn -[fetch_synonyms_from_powo powo_prefix String.append].
  destruct (fetch_synonyms_from_powo (powo_prefix ++ format_id ipni_id) w1)
    as [[[syn|e] w2] t2]; [clear T2 | discriminate T2].
  reflexivity.
Qed.

Lemma species_name_of_text (row : Series) :
  species_is_text row ->
  exists s, loc row "Species" = Ok (PStr s)
            /\ species_name_of row = Ok (strip s).
Proof.
  intros [s Hs]. exists s. split; [exact Hs|].
  unfold species_name_of. rewrite Hs. reflexivity.
Qed.

Lemma written_app (t1 t2 : list event) :
  written (t1 ++ t2) = (written t1 ++ written t2)%list.
Proof. apply flat_map_app. Qed.

Lemma written_fetch_ipni_id (species_name : string) (w : World) :
  written (trace (fetch_ipni_id species_name w)) = [].
Proof.
  rewrite fetch_ipni_id_run. cbv zeta.
  destruct (requests_get (ipni_request species_name) w) as [[response|e] w1];
    [destruct (ipni_id_of_response response)|]; reflexivity.
Qed.

Lemma written_fetch_synonyms_from_powo (powo_url : string) (w : World) :
  written (trace (fetch_synonyms_from_powo powo_url w)) = [].
Proof.
  rewrite fetch_synonyms_from_powo_run. cbv zeta.
  destruct (requests_get (powo_request powo_url) w) as [[response|e] w1];
    [destruct (synonyms_of_response response)|]; reflexivity.
Qed.

(** A turn of the loop on a text cell appends one record, named after the
    cell, and writes no file. *)
Lemma loop_body_appends (row : Series) (results : list ResultRecord)
  (w : World) :
  species_is_text row ->
  exists r w' t,
    loop_body row results w = (Ok (results ++ [r])%list, w', t)
    /\ Ok (Species r) = species_name_of row
    /\ written t = [].
Proof.
  intros H. destruct (species_name_of_text H) as (s & _ & Hn).
  rewrite loop_body_run, Hn. cbv zeta.
  destruct (negb (id_truthy (resolved (strip s) w))).
  - eexists _, _, _. split; [reflexivity|]. split; [reflexivity|].
    cbn [written flat_map app]. fold (written (trace (fetch_ipni_id (strip s) w)
                                              ++ [Print ("No IPNI ID found for " ++ strip s)])).
    rewrite written_app, written_fetch_ipni_id. reflexivity.
  - eexists _, _, _. split; [reflexivity|]. split; [reflexivity|].
    change (written (?e :: ?t)) with (written [e] ++ written t)%list.
    rewrite written_app, written_fetch_ipni_id.
    change (written (?e :: ?t)) with (written [e] ++ written t)%list.
    rewrite written_app, written_fetch_synonyms_from_powo. reflexivity.
Qed.

(** The loop on text cells appends one record for each row, in order. *)
Lemma for_rows_appends (rows : list Series) :
  Forall species_is_text rows ->
  forall (results : list ResultRecord) (w : World),
  exists recs w' t,
    for_rows rows results w = (Ok (results ++ recs)%list, w', t)
    /\ map (fun r => Ok (Species r)) recs = map species_name_of rows
    /\ written t = [].
Proof.
  induction 1 as [|row rest Hrow _ IH]; intros results w.
  - exists [], w, []. rewrite app_nil_r. repeat split.
  - destruct (loop_body_appends results w Hrow) as (r & w1 & t1 & E1 & Hr & W1).
    destruct (IH (results ++ [r])%list w1) as (recs & w2 & t2 & E2 & Hm & W2).
    exists (r :: recs), w2, (t1 ++ t2)%list.
    split; [|split].
    + cbn [for_rows bind M_Monad]. rewrite E1, E2.
      rewrite <- app_assoc. reflexivity.
    + cbn [map]. rewrite Hr, Hm. reflexivity.
    + rewrite written_app, W1, W2. reflexivity.
Qed.

Lemma has_column_existsb (label : string) (df : DataFrame) :
  has_column label df <-> existsb (fun c => c =? label) (columns df) = true.
Proof.
  unfold has_column. rewrite existsb_exists. split.
  - intros H. exists label. split; [exact H | apply String.eqb_refl].
  - intros (c & Hc & E). apply String.eqb_eq in E. subst c. exact Hc.
Qed.

Lemma resolved_eq (species_name : string) (w : World) (id : option string) :
  value (fetch_ipni_id species_name w) = Ok id ->
  resolved species_name w = id.
Proof. unfold resolved. intros ->. reflexivity. Qed.

Lemma extracted_eq (powo_url : string) (w : World)
  (syn : option (list string)) :
  value (fetch_synonyms_from_powo powo_url w) = Ok syn ->
  extracted powo_url w = syn.
Proof. unfold extracted. intros ->. reflexivity. Qed.

(** The events of a call of the Resolver: its mark, its one request and,
    when it caught an exception, the line it prints. *)
Lemma fetch_ipni_id_trace (species_name : string) (w : World) :
  exists d,
    trace (fetch_ipni_id species_name w)
    = Call_fetch_ipni_id species_name
        :: HttpGet (ipni_request species_name) :: d
    /\ (d = [] \/ exists e, d = [ipni_diagnostic species_name e]).
Proof.
  rewrite fetch_ipni_id_run. cbv zeta.
  destruct (requests_get (ipni_request species_name) w) as [[response|e] w1];
    [destruct (ipni_id_of_response response) as [id|e]|];
    eexists; (split; [reflexivity|]); eauto.
Qed.

Lemma fetch_synonyms_from_powo_trace (powo_url : string) (w : World) :
  exists d,
    trace (fetch_synonyms_from_powo powo_url w)
    = Call_fetch_synonyms_from_powo powo_url
        :: HttpGet (powo_request powo_url) :: d
    /\ (d = [] \/ exists e, d = [powo_diagnostic powo_url e]).
Proof.
  rewrite fetch_synonyms_from_powo_run. cbv zeta.
  destruct (requests_get (powo_request powo_url) w) as [[response|e] w1];
    [destruct (synonyms_of_response response) as [syn|e]|];
    eexists; (split; [reflexivity|]); eauto.
Qed.

(** A turn of the loop on the name [species_name], by what the Resolver
    answered: the record appended and the shape of the trace. *)
Lemma loop_body_turn (row : Series) (results : list ResultRecord) (w : World)
  (species_name : string) (ipni_id : option string) :
  species_name_of row = Ok species_name ->
  value (fetch_ipni_id species_name w) = Ok ipni_id ->
  let o := loop_body row results w in
  let w1 := world_after (fetch_ipni_id species_name w) in
  let powo_url := powo_prefix ++ format_id ipni_id in
  if id_truthy ipni_id then
    value o = Ok (results
                  ++ [{| Species := species_name;
                         POWO_URL := powo_url;
                         Synonyms := synonyms_field (extracted powo_url w1) |}])%list
    /\ exists d1 d2, diagnostics d1 /\ diagnostics d2
                     /\ trace o = full_turn species_name powo_url d1 d2
  else
    value o = Ok (results ++ [not_found species_name])%list
    /\ exists d, diagnostics d /\ trace o = short_turn species_name d.
Proof.
  intros Hn Hid. cbv zeta. rewrite loop_body_run, Hn. cbv zeta.
  rewrite (resolved_eq _ _ Hid).
  destruct (fetch_ipni_id_trace species_name w) as (d1 & T1 & D1).
  destruct (id_truthy ipni_id); cbn [negb value trace fst snd].
  - destruct (fetch_synonyms_from_powo_trace
                (powo_prefix ++ format_id ipni_id)
                (world_after (fetch_ipni_id species_name w)))
      as (d2 & T2 & D2).
    split; [reflexivity|]. exists d1, d2.
    split; [|split].
    + destruct D1 as [->|[e ->]]; [left|right; eexists]; reflexivity.
    + destruct D2 as [->|[e ->]]; [left|right; eexists]; reflexivity.
    + rewrite T1, T2. reflexivity.
  - split; [reflexivity|]. exists d1. split.
    + destruct D1 as [->|[e ->]]; [left|right; eexists]; reflexivity.
    + rewrite T1. reflexivity.
Qed.

Lemma observe_short_turn (species_name : string) (d : list event) :
  diagnostics d ->
  extractor_calls (short_turn species_name d) = []
  /\ requests (short_turn species_name d) = [ipni_request species_name]
  /\ sleeps (short_turn species_name d) = []
  /\ resolver_calls (short_turn species_name d) = [species_name].
Proof. intros [->|[l ->]]; repeat split. Qed.

Lemma observe_full_turn (species_name powo_url : string)
  (d1 d2 : list event) :
  diagnostics d1 -> diagnostics d2 ->
  extractor_calls (full_turn species_name powo_url d1 d2) = [powo_url]
  /\ requests (full_turn species_name powo_url d1 d2)
     = [ipni_request species_name; powo_request powo_url]
  /\ sleeps (full_turn species_name powo_url d1 d2) = [2%Z]
  /\ resolver_calls (full_turn species_name powo_url d1 d2) = [species_name].
Proof. intros [->|[l1 ->]] [->|[l2 ->]]; repeat split. Qed.

(** ** The Driver, row by row *)

(** C2.  For a row for which the Resolver returns absent, the Driver appends
    the record whose POWO_URL is "Not Found" and whose Synonyms is "None",
    and the Extractor is not called in that turn of the loop: the only
    request sent is the Resolver's. *)
Theorem absent_id_recorded_not_found
  (row : Series) (results : list ResultRecord) (w : World) (s : string) :
  loc row "Species" = Ok (PStr s) ->
  value (fetch_ipni_id (strip s) w) = Ok None ->
  let o := loop_body row results w in
  value o = Ok (results ++ [{| Species := strip s;
                               POWO_URL := "Not Found";
                               Synonyms := "None" |}])%list
  /\ extractor_calls (trace o) = []
  /\ requests (trace o) = [ipni_request (strip s)].
Proof.
  intros Hs Hid o.
  assert (Hn : species_name_of row = Ok (strip s))
    by (unfold species_name_of; rewrite Hs; reflexivity).
  destruct (loop_body_turn row results w Hn Hid) as (V & d & D & T).
  fold o in V, T. rewrite T.
  destruct (observe_short_turn (strip s) D) as (E & R & _).
  repeat split; assumption.
Qed.

(** C3.  For a row whose Resolver returned a non-empty Identifier, the
    record appended holds the constructed taxon URL, and its Synonyms is the
    Extractor's list joined with "; " when that list is not empty, and "None"
    when the Extractor returned absent; the list A, B gives "A; B". *)
Theorem synonyms_joined_or_none
  (row : Series) (results : list ResultRecord) (w : World) (s id : string)
  (syn : option (list string)) :
  loc row "Species" = Ok (PStr s) ->
  value (fetch_ipni_id (strip s) w) = Ok (Some id) ->
  id <> EmptyString ->
  value (fetch_synonyms_from_powo
           (powo_prefix ++ id)
           (world_after (fetch_ipni_id (strip s) w))) = Ok syn ->
  (exists r,
      value (loop_body row results w) = Ok (results ++ [r])%list
      /\ Species r = strip s
      /\ POWO_URL r = powo_prefix ++ id
      /\ (forall l, syn = Some l -> l <> [] -> Synonyms r = join "; " l)
      /\ (syn = None -> Synonyms r = "None"))
  /\ synonyms_field (Some ["A"; "B"]) = "A; B".
Proof.
  intros Hs Hid Hne Hsyn. split; [|reflexivity].
  assert (Hn : species_name_of row = Ok (strip s))
    by (unfold species_name_of; rewrite Hs; reflexivity).
  pose proof (loop_body_turn row results w Hn Hid) as H.
  cbv zeta in H. cbn [id_truthy format_id] in H.
  apply String.eqb_neq in Hne. rewrite Hne in H. cbn [negb] in H.
  destruct H as [V _]. rewrite (extracted_eq _ _ Hsyn) in V.
  eexists. split; [exact V|]. cbn [Species POWO_URL Synonyms].
  repeat split.
  - intros l -> Hl. destruct l; [contradiction|reflexivity].
  - intros ->. reflexivity.
Qed.

(** C9.  When the Extractor returns a list of no item, the Driver records
    the Synonyms field "None": the record is the one it appends when the
    Extractor returns absent. *)
Theorem empty_list_recorded_as_none
  (row : Series) (results : list ResultRecord) (w : World) (s id : string)
  (syn : option (list string)) :
  loc row "Species" = Ok (PStr s) ->
  value (fetch_ipni_id (strip s) w) = Ok (Some id) ->
  id <> EmptyString ->
  value (fetch_synonyms_from_powo
           (powo_prefix ++ id)
           (world_after (fetch_ipni_id (strip s) w))) = Ok syn ->
  syn = Some [] \/ syn = None ->
  value (loop_body row results w)
  = Ok (results ++ [{| Species := strip s;
                       POWO_URL := powo_prefix ++ id;
                       Synonyms := "None" |}])%list.
Proof.
  intros Hs Hid Hne Hsyn Hcase.
  assert (Hn : species_name_of row = Ok (strip s))
    by (unfold species_name_of; rewrite Hs; reflexivity).
  pose proof (loop_body_turn row results w Hn Hid) as H.
  cbv zeta in H. cbn [id_truthy format_id] in H.
  apply String.eqb_neq in Hne. rewrite Hne in H. cbn [negb] in H.
  destruct H as [V _]. rewrite (extracted_eq _ _ Hsyn) in V.
  rewrite V. destruct Hcase as [-> | ->]; reflexivity.
Qed.

(** C8.  The Driver sleeps 2 in a turn of the loop exactly when that turn
    built the URL and called the Extractor on it, that is when the Resolver
    returned a non-empty Identifier: no sleep when the Resolver returned
    absent, one sleep of 2 when the URL was built, also when the Extractor
    then returned absent. *)
Theorem sleep_follows_url_construction
  (row : Series) (results : list ResultRecord) (w : World) (s : string)
  (ipni_id : option string) :
  loc row "Species" = Ok (PStr s) ->
  value (fetch_ipni_id (strip s) w) = Ok ipni_id ->
  let t := trace (loop_body row results w) in
  let powo_url := powo_prefix ++ format_id ipni_id in
  (ipni_id = None -> sleeps t = [] /\ extractor_calls t = [])
  /\ (id_truthy ipni_id = false -> sleeps t = [] /\ extractor_calls t = [])
  /\ (id_truthy ipni_id = true ->
      sleeps t = [2%Z] /\ extractor_calls t = [powo_url])
  /\ (id_truthy ipni_id = true ->
      value (fetch_synonyms_from_powo
               powo_url (world_after (fetch_ipni_id (strip s) w))) = Ok None ->
      sleeps t = [2%Z]).
Proof.
  intros Hs Hid t powo_url.
  assert (Hn : species_name_of row = Ok (strip s))
    by (unfold species_name_of; rewrite Hs; reflexivity).
  pose proof (loop_body_turn row results w Hn Hid) as H.
  cbv zeta in H. fold t powo_url in H.
  assert (Hshort : id_truthy ipni_id = false ->
                   sleeps t = [] /\ extractor_calls t = []).
  { intros F. rewrite F in H. destruct H as (_ & d & D & T).
    rewrite T. destruct (observe_short_turn (strip s) D) as (E & _ & Z & _).
    split; assumption. }
  assert (Hfull : id_truthy ipni_id = true ->
                  sleeps t = [2%Z] /\ extractor_calls t = [powo_url]).
  { intros F. rewrite F in H. destruct H as (_ & d1 & d2 & D1 & D2 & T).
    rewrite T.
    destruct (observe_full_turn (strip s) powo_url D1 D2) as (E & _ & Z & _).
    split; assumption. }
  repeat split.
  - subst ipni_id. apply Hshort. reflexivity.
  - subst ipni_id. apply Hshort. reflexivity.
  - apply Hshort; assumption.
  - apply Hshort; assumption.
  - apply Hfull; assumption.
  - apply Hfull; assumption.
  - intros F _. apply Hfull; assumption.
Qed.

(** ** The Resolver on a registry answer *)

Lemma split_trailing_colon (p : string) :
  exists x r, split ":" (p ++ ":") = x :: r /\ forall d, List.last r d = EmptyString.
Proof.
  induction p as [|c p (x & r & E & L)].
  - exists EmptyString, [EmptyString]. split; reflexivity.
  - cbn [String.append split]. rewrite E.
    destruct (Ascii.eqb c ":").
    + exists EmptyString, (x :: r). split; [reflexivity|].
      intros d. cbn [List.last]. destruct r as [|y r].
      * specialize (L "x"). discriminate L.
      * apply (L d).
    + exists (String c x), r. split; [reflexivity | exact L].
Qed.

Lemma last_segment_trailing_colon (p : string) :
  r <- py_split_colon (PStr (p ++ ":")) ;; getitem_last r = Ok EmptyString.
Proof.
  cbn [py_split_colon bind result_Monad].
  destruct (split_trailing_colon p) as (x & r & -> & L).
  cbn [getitem_last]. rewrite L. reflexivity.
Qed.

Lemma ipni_id_of_first_result (response : response) (data : pyval)
  (id : string) :
  raise_for_status response = Ok tt ->
  resp_json response = Ok data ->
  first_result_id data id ->
  ipni_id_of_response response
  = r <- py_split_colon (PStr id) ;; x <- getitem_last r ;; ret (Some x).
Proof.
  intros Hst Hj (d & first & rest & -> & Hres & Hid).
  unfold ipni_id_of_response. rewrite Hst, Hj.
  cbn [bind result_Monad].
  assert (Hd : truthy (PDict d) = true).
  { destruct d; [discriminate Hres | reflexivity]. }
  unfold has_results, first_id. rewrite Hd.
  cbn [bind result_Monad contains getitem_str]. rewrite Hres.
  cbn [bind result_Monad len List.length getitem_0].
  replace (0 <? Z.of_nat (S (List.length rest)))%Z with true
    by (symmetry; apply Z.ltb_lt; lia).
  cbn [ret result_Monad]. rewrite Hid.
  cbn [bind result_Monad py_split_colon].
  destruct (getitem_last (split ":" id)); reflexivity.
Qed.

(** C10.  When the id of the first search result ends with a colon, the
    Resolver returns the empty string and the Driver treats the row as not
    found: it appends the "Not Found"/"None" record, builds no URL and does
    not call the Extractor. *)
Theorem trailing_colon_id_treated_as_not_found
  (row : Series) (results : list ResultRecord) (w w1 : World) (s p : string)
  (response : response) (data : pyval) :
  loc row "Species" = Ok (PStr s) ->
  requests_get (ipni_request (strip s)) w = (Ok response, w1) ->
  raise_for_status response = Ok tt ->
  resp_json response = Ok data ->
  first_result_id data (p ++ ":") ->
  let o := loop_body row results w in
  value (fetch_ipni_id (strip s) w) = Ok (Some EmptyString)
  /\ value o = Ok (results ++ [{| Species := strip s;
                                POWO_URL := "Not Found";
                                Synonyms := "None" |}])%list
  /\ extractor_calls (trace o) = []
  /\ printed (trace o) = ["Processing species: " ++ strip s;
                          "No IPNI ID found for " ++ strip s].
Proof.
  intros Hs Hget Hst Hj Hfirst o.
  assert (Hid : fetch_ipni_id (strip s) w
                = (Ok (Some EmptyString), w1,
                   [Call_fetch_ipni_id (strip s);
                    HttpGet (ipni_request (strip s))])).
  { rewrite fetch_ipni_id_run. cbv zeta. rewrite Hget.
    rewrite (ipni_id_of_first_result _ Hst Hj Hfirst).
    pose proof (last_segment_trailing_colon p) as L.
    cbn [bind result_Monad py_split_colon] in L |- *.
    rewrite L. reflexivity. }
  split; [rewrite Hid; reflexivity|].
  assert (Hn : species_name_of row = Ok (strip s))
    by (unfold species_name_of; rewrite Hs; reflexivity).
  subst o. rewrite loop_body_run, Hn. cbv zeta.
  unfold resolved. rewrite Hid. repeat split.
Qed.

(** C6.  When the registry answers with the body
    [{"results": [{"id": "urn:lsid:ipni.org:names:12345"}]}] and a status
    that is no error, the Resolver returns "12345", and the Driver builds
    the URL https://powo.science.kew.org/taxon/urn:lsid:ipni.org:names:12345
    for the row: it calls the Extractor on it and records it as POWO_URL. *)
Theorem mocked_registry_answer_resolved
  (row : Series) (results : list ResultRecord) (w w1 : World) (s : string)
  (response : response) :
  loc row "Species" = Ok (PStr s) ->
  requests_get (ipni_request (strip s)) w = (Ok response, w1) ->
  raise_for_status response = Ok tt ->
  resp_json response
  = Ok (PDict [("results",
                PList [PDict [("id",
                               PStr "urn:lsid:ipni.org:names:12345")]])]) ->
  let o := loop_body row results w in
  let powo_url :=
    "https://powo.science.kew.org/taxon/urn:lsid:ipni.org:names:12345" in
  value (fetch_ipni_id (strip s) w) = Ok (Some "12345")
  /\ extractor_calls (trace o) = [powo_url]
  /\ In (Print ("Constructed POWO URL: " ++ powo_url)) (trace o)
  /\ exists r, value o = Ok (results ++ [r])%list
               /\ Species r = strip s
               /\ POWO_URL r = powo_url.
Proof.
  intros Hs Hget Hst Hj o powo_url.
  assert (Hid : fetch_ipni_id (strip s) w
                = (Ok (Some "12345"), w1,
                   [Call_fetch_ipni_id (strip s);
                    HttpGet (ipni_request (strip s))])).
  { rewrite fetch_ipni_id_run. cbv zeta. rewrite Hget.
    unfold ipni_id_of_response. rewrite Hst, Hj. reflexivity. }
  split; [rewrite Hid; reflexivity|].
  assert (Hn : species_name_of row = Ok (strip s))
    by (unfold species_name_of; rewrite Hs; reflexivity).
  assert (Hv : value (fetch_ipni_id (strip s) w) = Ok (Some "12345"))
    by (rewrite Hid; reflexivity).
  destruct (loop_body_turn row results w Hn Hv)
    as (V & d1 & d2 & D1 & D2 & T).
  fold o in V, T.
  change (powo_prefix ++ format_id (Some "12345")) with powo_url in V, T.
  destruct (observe_full_turn (strip s) powo_url D1 D2) as (E & _).
  rewrite T. split; [exact E|]. split.
  - unfold full_turn. apply in_or_app. right.
    apply in_or_app. right. left. reflexivity.
  - eexists. split; [exact V|]. split; reflexivity.
Qed.

(** ** The whole run *)

(** C5.  When the table read has no column 'Species', [main] raises the
    configuration error at once: nothing was done but reading the input, no
    row was processed and no file written. *)
Theorem missing_column_aborts_before_any_row
  (input_csv output_csv : string) (w w0 : World) (df : DataFrame) :
  read_csv input_csv w = (Ok df, w0) ->
  ~ has_column "Species" df ->
  let o := main input_csv output_csv w in
  value o = Raise (mkExn ValueError
                         "The input file must contain a 'Species' column.")
  /\ trace o = [ReadCsv input_csv]
  /\ written (trace o) = []
  /\ resolver_calls (trace o) = []
  /\ world_after o = w0.
Proof.
  intros Hread Hcol o. subst o.
  unfold main, pd_read_csv. cbn [bind M_Monad]. rewrite Hread.
  destruct (existsb (fun c => c =? "Species") (columns df)) eqn:E.
  - exfalso. apply Hcol. apply has_column_existsb. exact E.
  - repeat split.
Qed.

(** C1, amended.  When the table has a column 'Species' and every cell of
    that column is text, [main] writes the output once, with one record for
    each input row in the order of the rows, whatever the registry and the
    pages answer; it ends well unless writing the file raises. *)
Theorem one_record_for_each_text_row
  (input_csv output_csv : string) (w w0 : World) (df : DataFrame) :
  read_csv input_csv w = (Ok df, w0) ->
  has_column "Species" df ->
  Forall species_is_text (iterrows df) ->
  let o := main input_csv output_csv w in
  one_record_per_row df output_csv (trace o)
  /\ (value o = Ok tt
      \/ exists recs w1,
           value o = fst (to_csv (pd_DataFrame recs) output_csv w1)).
Proof.
  intros Hread Hcol Htext o. subst o.
  destruct (for_rows_appends Htext [] w0) as (recs & w1 & t & E & Hm & W).
  cbn [app] in E.
  apply has_column_existsb in Hcol.
  unfold main, pd_read_csv, df_to_csv, print, emit.
  cbn [bind M_Monad]. rewrite Hread, Hcol. cbn [negb]. rewrite E.
  destruct (to_csv (pd_DataFrame recs) output_csv w1) as [[[]|e] w2] eqn:Ew.
  - split; [|left; reflexivity].
    exists recs. cbn [trace snd]. split; [|split].
    + rewrite !written_app, W. reflexivity.
    + apply (f_equal (@List.length _)) in Hm.
      rewrite !length_map in Hm. unfold iterrows in Hm.
      rewrite length_map in Hm. exact Hm.
    + exact Hm.
  - split; [|right; exists recs, w1; rewrite Ew; reflexivity].
    exists recs. cbn [trace snd]. split; [|split].
    + rewrite !written_app, W. reflexivity.
    + apply (f_equal (@List.length _)) in Hm.
      rewrite !length_map in Hm. unfold iterrows in Hm.
      rewrite length_map in Hm. exact Hm.
    + exact Hm.
Qed.

(** ** The Extractor on a page *)

Lemma descendants_tag (name : string) (attrs : list (string * Soup.attr))
  (cs : list Soup.node) :
  Soup.descendants (Soup.Tag name attrs cs)
  = flat_map (fun c => c :: Soup.descendants c) cs.
Proof.
  cbn [Soup.descendants].
  induction cs as [|c r IH]; [reflexivity|].
  cbn [flat_map app]. rewrite IH. reflexivity.
Qed.

(** [descendants] lists the nodes below a node, and only them. *)
Lemma In_descendants (d n : Soup.node) :
  In d (Soup.descendants n) <-> Soup.Below d n.
Proof.
  split.
  - revert d. induction n as [s|s|name attrs cs IH]
      using Soup.node_children_ind; intros d H; try contradiction.
    rewrite descendants_tag in H. apply in_flat_map in H.
    destruct H as (c & Hc & [<- | Hd]).
    + apply Soup.Below_child. exact Hc.
    + apply Soup.Below_deeper with (c := c); [exact Hc|].
      rewrite Forall_forall in IH. apply IH; assumption.
  - induction 1 as [name attrs cs Hc | name attrs cs c Hc _ IH];
      rewrite descendants_tag; apply in_flat_map.
    + exists d. split; [exact Hc | left; reflexivity].
    + exists c. split; [exact Hc | right; exact IH].
Qed.

Lemma find_none_below (n : Soup.node) (name key wanted : string) :
  (forall d, Soup.Below d n -> Soup.tag_matches name key wanted d = false) ->
  Soup.find n name key wanted = None.
Proof.
  intros H. unfold Soup.find.
  assert (G : forall d, In d (Soup.descendants n) ->
                        Soup.tag_matches name key wanted d = false)
    by (intros d Hd; apply H, In_descendants, Hd).
  induction (Soup.descendants n) as [|x l IH]; [reflexivity|].
  cbn [List.find]. rewrite (G x (or_introl eq_refl)).
  apply IH. intros d Hd. apply G. right. exact Hd.
Qed.

Lemma find_some_below (n sec : Soup.node) (name key wanted : string) :
  Soup.find n name key wanted = Some sec ->
  Soup.Below sec n /\ Soup.tag_matches name key wanted sec = true.
Proof.
  intros H. apply find_some in H. destruct H as [Hin Hm].
  split; [apply In_descendants, Hin | exact Hm].
Qed.

Lemma synonyms_of_soup_absent (soup : Soup.node) :
  no_synonyms_section soup \/ no_synonym_list soup ->
  synonyms_of_soup soup = None.
Proof.
  unfold synonyms_of_soup. intros [H | [_ H]].
  - rewrite (@find_none_below soup "section" "id" "synonyms" H).
    reflexivity.
  - destruct (Soup.find soup "section" "id" "synonyms") as [sec|] eqn:E;
      [|reflexivity].
    apply find_some_below in E. destruct E as [Hb Hm].
    rewrite (@find_none_below sec "ul" "class" "c-synonym-list"
               (H sec Hb Hm)).
    reflexivity.
Qed.

(** C7.  For a page in which no element is a section of id "synonyms", and
    likewise for a page whose sections of that id hold no ul of class
    "c-synonym-list", the Extractor returns absent, not the empty list. *)
Theorem no_section_yields_absent
  (powo_url : string) (w w1 : World) (response : response)
  (soup : Soup.node) :
  requests_get (powo_request powo_url) w = (Ok response, w1) ->
  BeautifulSoup (resp_text response) "html.parser" = Ok soup ->
  no_synonyms_section soup \/ no_synonym_list soup ->
  value (fetch_synonyms_from_powo powo_url w) = Ok None
  /\ value (fetch_synonyms_from_powo powo_url w) <> Ok (Some []).
Proof.
  intros Hget Hsoup Hpage.
  assert (V : value (fetch_synonyms_from_powo powo_url w) = Ok None).
  { rewrite fetch_synonyms_from_powo_run. cbv zeta. rewrite Hget.
    unfold synonyms_of_response.
    destruct (raise_for_status response) as [[]|e]; [|reflexivity].
    cbn [bind result_Monad]. rewrite Hsoup.
    cbn [bind ret result_Monad].
    rewrite (synonyms_of_soup_absent Hpage). reflexivity. }
  split; [exact V|]. rewrite V. discriminate.
Qed.

(** ** Failures *)

Lemma error_status_raises (r : response) :
  (400 <= status_code r < 600)%Z ->
  exists e, raise_for_status r = Raise e.
Proof.
  intros [H1 H2]. unfold raise_for_status.
  apply Z.leb_le in H1. apply Z.ltb_lt in H2. rewrite H1, H2.
  eexists. reflexivity.
Qed.

Lemma resolver_failure_outcome (f : failure) (r : response) :
  resolver_fails f (Ok r) ->
  if silent f then ipni_id_of_response r = Ok None
  else exists e, ipni_id_of_response r = Raise e.
Proof.
  unfold ipni_id_of_response.
  destruct f; cbn [resolver_fails silent]; try contradiction.
  - intros H. destruct (error_status_raises _ H) as [e ->].
    exists e. reflexivity.
  - intros (-> & e & ->). exists e. reflexivity.
  - intros (-> & d & -> & Hd).
    cbn [bind result_Monad]. unfold has_results.
    destruct d as [|kv d]; [reflexivity|].
    cbn [truthy contains bind result_Monad]. rewrite Hd. reflexivity.
  - intros (-> & d & -> & Hd).
    cbn [bind result_Monad]. unfold has_results.
    destruct d as [|kv d]; [discriminate Hd|].
    cbn [truthy contains getitem_str bind result_Monad]. rewrite Hd.
    reflexivity.
Qed.

Lemma extractor_failure_outcome (f : failure) (r : response) :
  extractor_fails f (Ok r) ->
  if silent f then synonyms_of_response r = Ok None
  else exists e, synonyms_of_response r = Raise e.
Proof.
  unfold synonyms_of_response.
  destruct f; cbn [extractor_fails silent]; try contradiction.
  - intros H. destruct (error_status_raises _ H) as [e ->].
    exists e. reflexivity.
  - intros (-> & e & ->). exists e. reflexivity.
  - intros (-> & soup & -> & H). cbn [bind ret result_Monad].
    rewrite (synonyms_of_soup_absent (or_introl H)). reflexivity.
  - intros (-> & soup & -> & H). cbn [bind ret result_Monad].
    rewrite (synonyms_of_soup_absent (or_intror H)). reflexivity.
Qed.

(** C4, amended.  The Resolver and the Extractor never raise: each returns
    a value in every world.  On a network error, an error status or a body
    that does not parse they return absent and print one diagnostic line;
    on an answer without results, or with an empty list of results, and on a
    page without the synonyms section or without the synonym list, they
    return absent and print nothing.  A call sends one request and does
    nothing else. *)
Theorem failures_yield_absent
  (species_name powo_url : string) (w : World) :
  (exists id, value (fetch_ipni_id species_name w) = Ok id)
  /\ (exists syn, value (fetch_synonyms_from_powo powo_url w) = Ok syn)
  /\ (forall f,
        resolver_fails f (fst (requests_get (ipni_request species_name) w)) ->
        value (fetch_ipni_id species_name w) = Ok None
        /\ exists d,
             trace (fetch_ipni_id species_name w)
             = Call_fetch_ipni_id species_name
                 :: HttpGet (ipni_request species_name) :: d
             /\ if silent f then d = []
                else exists e, d = [ipni_diagnostic species_name e])
  /\ (forall f,
        extractor_fails f (fst (requests_get (powo_request powo_url) w)) ->
        value (fetch_synonyms_from_powo powo_url w) = Ok None
        /\ exists d,
             trace (fetch_synonyms_from_powo powo_url w)
             = Call_fetch_synonyms_from_powo powo_url
                 :: HttpGet (powo_request powo_url) :: d
             /\ if silent f then d = []
                else exists e, d = [powo_diagnostic powo_url e]).
Proof.
  split; [eexists; apply fetch_ipni_id_total|].
  split; [eexists; apply fetch_synonyms_from_powo_total|].
  split; intros f Hf.
  - rewrite fetch_ipni_id_run. cbv zeta.
    destruct (requests_get (ipni_request species_name) w) as [[r|e] w1];
      cbn [fst] in Hf.
    + pose proof (resolver_failure_outcome f r Hf) as H.
      destruct (silent f).
      * rewrite H. split; [reflexivity|]. exists []. split; reflexivity.
      * destruct H as [e ->]. split; [reflexivity|].
        eexists. split; [reflexivity|]. exists e. reflexivity.
    + destruct f; try contradiction.
      split; [reflexivity|]. eexists. split; [reflexivity|].
      exists e. reflexivity.
  - rewrite fetch_synonyms_from_powo_run. cbv zeta.
    destruct (requests_get (powo_request powo_url) w) as [[r|e] w1];
      cbn [fst] in Hf.
    + pose proof (extractor_failure_outcome f r Hf) as H.
      destruct (silent f).
      * rewrite H. split; [reflexivity|]. exists []. split; reflexivity.
      * destruct H as [e ->]. split; [reflexivity|].
        eexists. split; [reflexivity|]. exists e. reflexivity.
    + destruct f; try contradiction.
      split; [reflexivity|]. eexists. split; [reflexivity|].
      exists e. reflexivity.
Qed.

(** ** More on strings *)

Lemma last_cons {A} (x d : A) (r : list A) :
  List.last (x :: r) d = List.last r x.
Proof.
  revert x d. induction r as [|y r IH]; intros x d; [reflexivity|].
  change (List.last (x :: y :: r) d) with (List.last (y :: r) d).
  rewrite (IH y d), (IH y x). reflexivity.
Qed.

Lemma split_shape (t : string) :
  exists x r, split ":" t = x :: r
              /\ (has_colon t = false -> x = t /\ r = [])
              /\ (has_colon t = true -> r <> []).
Proof.
  induction t as [|c t (x & r & E & Hf & Ht)].
  - exists EmptyString, []. repeat split; discriminate.
  - cbn [split has_colon]. rewrite E. destruct (Ascii.eqb c ":"); cbn [orb].
    + exists EmptyString, (x :: r). repeat split; discriminate.
    + exists (String c x), r. split; [reflexivity|]. split.
      * intros H. destruct (Hf H) as [-> ->]. split; reflexivity.
      * exact Ht.
Qed.

Lemma last_segment_cons (c : ascii) (t : string) :
  last_segment (String c t)
  = if Ascii.eqb c ":" || has_colon t then last_segment t else String c t.
Proof.
  unfold last_segment. cbn [split].
  destruct (split_shape t) as (x & r & E & Hf & Ht). rewrite E.
  destruct (Ascii.eqb c ":"); cbn [orb].
  - apply last_cons.
  - destruct (has_colon t).
    + destruct r as [|y r]; [exfalso; apply Ht; reflexivity|].
      rewrite !last_cons. reflexivity.
    + destruct (Hf eq_refl) as [-> ->]. reflexivity.
Qed.

Lemma last_segment_no_colon (s : string) :
  has_colon s = false -> last_segment s = s.
Proof.
  destruct s as [|c t]; [reflexivity|]. intros H.
  rewrite last_segment_cons. cbn [has_colon] in H. rewrite H. reflexivity.
Qed.

Lemma has_colon_last_segment (s : string) :
  has_colon (last_segment s) = false.
Proof.
  induction s as [|c t IH]; [reflexivity|].
  rewrite last_segment_cons.
  destruct (Ascii.eqb c ":" || has_colon t) eqn:E; [exact IH | exact E].
Qed.

Lemma has_colon_app (p q : string) :
  has_colon (p ++ q) = has_colon p || has_colon q.
Proof.
  induction p as [|c p IH]; [reflexivity|].
  cbn [String.append has_colon]. rewrite IH. apply orb_assoc.
Qed.

Lemma last_segment_after_colon (p q : string) :
  has_colon q = false -> last_segment (p ++ ":" ++ q) = q.
Proof.
  intros Hq. change (":" ++ q) with (String ":" q).
  induction p as [|c p IH].
  - cbn [String.append]. rewrite last_segment_cons. cbn [Ascii.eqb orb].
    apply last_segment_no_colon, Hq.
  - cbn [String.append]. rewrite last_segment_cons.
    assert (H : has_colon (p ++ String ":" q) = true)
      by (rewrite has_colon_app; apply orb_true_r).
    rewrite H, orb_true_r. exact IH.
Qed.

Lemma getitem_last_split (s : string) :
  getitem_last (split ":" s) = Ok (last_segment s).
Proof.
  unfold last_segment. destruct (split_shape s) as (x & r & -> & _).
  reflexivity.
Qed.

Lemma starts_with_space_lstrip (s : string) :
  starts_with_space (lstrip s) = false.
Proof.
  induction s as [|c t IH]; [reflexivity|].
  cbn [lstrip]. destruct (isspace c) eqn:E; [exact IH | exact E].
Qed.

Lemma starts_with_space_rstrip (s : string) :
  starts_with_space s = false -> starts_with_space (rstrip s) = false.
Proof.
  destruct s as [|c t]; [reflexivity|]. cbn [starts_with_space rstrip].
  intros H. destruct (rstrip t); [rewrite H|]; exact H.
Qed.

Lemma ends_with_space_rstrip (s : string) :
  ends_with_space (rstrip s) = false.
Proof.
  induction s as [|c t IH]; [reflexivity|].
  cbn [rstrip]. destruct (rstrip t) as [|c' t'].
  - destruct (isspace c) eqn:E; [reflexivity | exact E].
  - exact IH.
Qed.

Lemma strip_trimmed (s : string) : trimmed (strip s).
Proof.
  split.
  - apply starts_with_space_rstrip, starts_with_space_lstrip.
  - apply ends_with_space_rstrip.
Qed.

Lemma rstrip_fixed (s : string) :
  ends_with_space s = false -> rstrip s = s.
Proof.
  induction s as [|c t IH]; [reflexivity|].
  intros H. cbn [rstrip]. destruct t as [|c' t'].
  - cbn in H |- *. rewrite H. reflexivity.
  - rewrite (IH H). reflexivity.
Qed.

Lemma strip_fixed (s : string) : trimmed s -> strip s = s.
Proof.
  intros [H1 H2]. unfold strip.
  assert (L : lstrip s = s).
  { destruct s as [|c t]; [reflexivity|]. cbn in H1 |- *.
    rewrite H1. reflexivity. }
  rewrite L. apply rstrip_fixed, H2.
Qed.

(** ** More on the Resolver *)

Lemma first_id_some (data : pyval) (id : string) :
  first_id data = Ok id ->
  exists idstr, first_result_id data idstr /\ last_segment idstr = id.
Proof.
  unfold first_id, first_result_id. intros H.
  destruct data as [| | | | |l|d]; try discriminate H.
  cbn [getitem_str bind result_Monad] in H.
  destruct (assoc "results" d) as [r|] eqn:Er; [|discriminate H].
  cbn [bind result_Monad] in H.
  destruct r as [| | | |s|l|d']; try discriminate H.
  - destruct s as [|c s]; discriminate H.
  - destruct l as [|first rest]; [discriminate H|].
    cbn [getitem_0 bind result_Monad] in H.
    destruct (getitem_str first "id") as [v|e] eqn:Ev; [|discriminate H].
    cbn [bind result_Monad] in H.
    destruct v as [| | | |idstr| |]; try discriminate H.
    cbn [py_split_colon bind result_Monad] in H.
    rewrite getitem_last_split in H. injection H as <-.
    exists idstr. split; [|reflexivity].
    exists d, first, rest. repeat split; assumption.
Qed.

Lemma ipni_id_of_response_some (r : response) (id : string) :
  ipni_id_of_response r = Ok (Some id)
  <-> raise_for_status r = Ok tt
      /\ exists data idstr,
           resp_json r = Ok data
           /\ first_result_id data idstr
           /\ last_segment idstr = id.
Proof.
  split.
  - unfold ipni_id_of_response. intros H.
    destruct (raise_for_status r) as [[]|e]; [|discriminate H].
    split; [reflexivity|]. cbn [bind result_Monad] in H.
    destruct (resp_json r) as [data|e]; [|discriminate H].
    cbn [bind result_Monad] in H.
    destruct (has_results data) as [[|]|e]; try discriminate H.
    cbn [bind result_Monad] in H.
    destruct (first_id data) as [id'|e] eqn:E; [|discriminate H].
    injection H as <-.
    destruct (first_id_some _ E) as (idstr & F & L).
    exists data, idstr. repeat split; assumption.
  - intros (Hst & data & idstr & Hj & F & <-).
    rewrite (ipni_id_of_first_result _ Hst Hj F).
    cbn [py_split_colon bind result_Monad].
    rewrite getitem_last_split. reflexivity.
Qed.

Lemma fetch_ipni_id_some
  (species_name : string) (w : World) (id : string) :
  value (fetch_ipni_id species_name w) = Ok (Some id)
  <-> exists response data idstr,
        fst (requests_get (ipni_request species_name) w) = Ok response
        /\ raise_for_status response = Ok tt
        /\ resp_json response = Ok data
        /\ first_result_id data idstr
        /\ last_segment idstr = id.
Proof.
  rewrite fetch_ipni_id_run. cbv zeta.
  destruct (requests_get (ipni_request species_name) w) as [[r|e] w1];
    cbn [fst].
  - split.
    + intros H. exists r.
      destruct (ipni_id_of_response r) as [o|e] eqn:E;
        [|discriminate H].
      cbn [value fst] in H. injection H as ->.
      apply ipni_id_of_response_some in E.
      destruct E as (Hst & data & idstr & Hj & F & L).
      exists data, idstr. repeat split; assumption.
    + intros (r' & data & idstr & Hr & Hst & Hj & F & L).
      injection Hr as <-.
      assert (E : ipni_id_of_response r = Ok (Some id)).
      { apply ipni_id_of_response_some. split; [exact Hst|].
        exists data, idstr. repeat split; assumption. }
      rewrite E. reflexivity.
  - split; [discriminate|].
    intros (r' & _ & _ & Hr & _). discriminate Hr.
Qed.

Lemma fetch_ipni_id_no_colon
  (species_name : string) (w : World) (id : string) :
  value (fetch_ipni_id species_name w) = Ok (Some id) ->
  has_colon id = false.
Proof.
  intros H. apply fetch_ipni_id_some in H.
  destruct H as (_ & _ & idstr & _ & _ & _ & _ & <-).
  apply has_colon_last_segment.
Qed.

(** The Resolver returns an Identifier exactly when the request was
    answered with a status that is no error and the body is a JSON object
    whose "results" is a list that starts with an object holding a text
    "id"; the Identifier is what follows the last colon of that id. *)
Theorem resolver_identifier_iff
  (species_name : string) (w : World) (id : string) :
  value (fetch_ipni_id species_name w) = Ok (Some id)
  <-> exists response data idstr,
        fst (requests_get (ipni_request species_name) w) = Ok response
        /\ raise_for_status response = Ok tt
        /\ resp_json response = Ok data
        /\ first_result_id data idstr
        /\ last_segment idstr = id.
Proof. apply fetch_ipni_id_some. Qed.

(** The Identifier the Resolver returns holds no colon. *)
Theorem resolver_identifier_has_no_colon
  (species_name : string) (w : World) (id : string) :
  value (fetch_ipni_id species_name w) = Ok (Some id) ->
  has_colon id = false.
Proof. apply fetch_ipni_id_no_colon. Qed.

(** On an answer whose first result has the id [p ++ ":" ++ q], with no
    colon in [q], the Resolver returns [q]; on an id without any colon it
    returns the whole id. *)
Theorem resolver_returns_text_after_last_colon
  (species_name : string) (w w1 : World) (response : response)
  (data : pyval) (idstr q : string) :
  requests_get (ipni_request species_name) w = (Ok response, w1) ->
  raise_for_status response = Ok tt ->
  resp_json response = Ok data ->
  first_result_id data idstr ->
  idstr = q \/ (exists p, idstr = p ++ ":" ++ q) ->
  has_colon q = false ->
  value (fetch_ipni_id species_name w) = Ok (Some q).
Proof.
  intros Hget Hst Hj F Hid Hq.
  apply fetch_ipni_id_some.
  exists response, data, idstr. rewrite Hget.
  repeat split; try assumption.
  destruct Hid as [-> | [p ->]].
  - apply last_segment_no_colon, Hq.
  - apply last_segment_after_colon, Hq.
Qed.

(** Whatever the outcome, a call of the Resolver sends one request, the GET
    of the search URL with the name as [q] and [type=names] and a timeout of
    10, prints at most one line and does nothing else; it prints nothing
    when it returns an Identifier. *)
Theorem resolver_sends_one_request (species_name : string) (w : World) :
  let t := trace (fetch_ipni_id species_name w) in
  requests t = [{| req_url := "https://www.ipni.org/api/1/search";
                   req_params := [("q", species_name); ("type", "names")];
                   req_headers := [];
                   req_timeout := 10 |}]
  /\ (List.length (printed t) <= 1)%nat
  /\ sleeps t = [] /\ written t = [] /\ reads t = []
  /\ extractor_calls t = []
  /\ (forall id, value (fetch_ipni_id species_name w) = Ok (Some id) ->
                 printed t = []).
Proof.
  cbv zeta. rewrite fetch_ipni_id_run. cbv zeta.
  destruct (requests_get (ipni_request species_name) w) as [[r|e] w1];
    [destruct (ipni_id_of_response r) as [o|e]|];
    cbn; repeat split; try lia; intros id H; try reflexivity;
    discriminate H.
Qed.

(** ** More on the Extractor *)

(** Whatever the outcome, a call of the Extractor sends one request, the GET
    of the URL with the browser's User-Agent and a timeout of 10, prints at
    most one line and does nothing else; it prints nothing when it returns
    a list. *)
Theorem extractor_sends_one_request (powo_url : string) (w : World) :
  let t := trace (fetch_synonyms_from_powo powo_url w) in
  requests t = [{| req_url := powo_url;
                   req_params := [];
                   req_headers := [("User-Agent", user_agent)];
                   req_timeout := 10 |}]
  /\ (List.length (printed t) <= 1)%nat
  /\ sleeps t = [] /\ written t = [] /\ reads t = []
  /\ resolver_calls t = []
  /\ (forall l, value (fetch_synonyms_from_powo powo_url w) = Ok (Some l) ->
                printed t = []).
Proof.
  cbv zeta. rewrite fetch_synonyms_from_powo_run. cbv zeta.
  destruct (requests_get (powo_request powo_url) w) as [[r|e] w1];
    [destruct (synonyms_of_response r) as [o|e]|];
    cbn; repeat split; try lia; intros l H; try reflexivity;
    discriminate H.
Qed.

Lemma find_some_exists (n : Soup.node) (name key wanted : string) :
  (exists d, Soup.Below d n /\ Soup.tag_matches name key wanted d = true) ->
  exists x, Soup.find n name key wanted = Some x.
Proof.
  intros (d & Hb & Hm). unfold Soup.find.
  destruct (List.find (Soup.tag_matches name key wanted)
                      (Soup.descendants n)) as [x|] eqn:E.
  - exists x. reflexivity.
  - apply In_descendants in Hb.
    rewrite (find_none _ _ E d Hb) in Hm. discriminate Hm.
Qed.

Lemma synonyms_of_soup_trimmed (soup : Soup.node) (l : list string) :
  synonyms_of_soup soup = Some l -> Forall trimmed l.
Proof.
  unfold synonyms_of_soup.
  destruct (Soup.find soup "section" "id" "synonyms") as [sec|];
    [|discriminate].
  destruct (Soup.find sec "ul" "class" "c-synonym-list") as [ul|];
    [|discriminate].
  intros H. injection H as <-.
  apply Forall_forall. intros x Hx. apply in_map_iff in Hx.
  destruct Hx as (li & <- & _). apply strip_trimmed.
Qed.

Lemma fetch_synonyms_from_powo_some
  (powo_url : string) (w : World) (l : list string) :
  value (fetch_synonyms_from_powo powo_url w) = Ok (Some l)
  <-> exists response soup,
        fst (requests_get (powo_request powo_url) w) = Ok response
        /\ raise_for_status response = Ok tt
        /\ BeautifulSoup (resp_text response) "html.parser" = Ok soup
        /\ synonyms_of_soup soup = Some l.
Proof.
  rewrite fetch_synonyms_from_powo_run. cbv zeta.
  destruct (requests_get (powo_request powo_url) w) as [[r|e] w1];
    cbn [fst].
  - unfold synonyms_of_response.
    destruct (raise_for_status r) as [[]|e] eqn:Est;
      cbn [bind result_Monad].
    + destruct (BeautifulSoup (resp_text r) "html.parser") as [soup|e]
        eqn:Es; cbn [bind ret result_Monad value fst].
      * split.
        -- intros H. injection H as H. exists r, soup.
           split; [reflexivity|]. split; [exact Est|].
           split; [exact Es | exact H].
        -- intros (r' & soup' & Hr & _ & Hs & H).
           injection Hr as <-. rewrite Es in Hs. injection Hs as <-.
           rewrite H. reflexivity.
      * split; [discriminate|].
        intros (r' & soup' & Hr & _ & Hs & _).
        injection Hr as <-. rewrite Es in Hs. discriminate Hs.
    + split; [discriminate|].
      intros (r' & soup' & Hr & Hst & _).
      injection Hr as <-. rewrite Est in Hst. discriminate Hst.
  - split; [discriminate|].
    intros (r' & _ & Hr & _). discriminate Hr.
Qed.

(** Every synonym the Extractor returns is trimmed: no whitespace at either
    end. *)
Theorem extractor_items_are_trimmed
  (powo_url : string) (w : World) (l : list string) :
  value (fetch_synonyms_from_powo powo_url w) = Ok (Some l) ->
  Forall trimmed l.
Proof.
  intros H. apply fetch_synonyms_from_powo_some in H.
  destruct H as (_ & soup & _ & _ & _ & H).
  apply (synonyms_of_soup_trimmed _ H).
Qed.

(** When the page was fetched with a status that is no error, holds a
    synonyms section, and every synonyms section holds a synonym list, the
    Extractor returns a list (possibly empty), not absent, and prints
    nothing. *)
Theorem section_and_list_yield_a_list
  (powo_url : string) (w w1 : World) (response : response)
  (soup : Soup.node) :
  requests_get (powo_request powo_url) w = (Ok response, w1) ->
  raise_for_status response = Ok tt ->
  BeautifulSoup (resp_text response) "html.parser" = Ok soup ->
  (exists sec, Soup.Below sec soup /\ is_synonyms_section sec = true) ->
  (forall sec, Soup.Below sec soup -> is_synonyms_section sec = true ->
               exists u, Soup.Below u sec /\ is_synonym_list u = true) ->
  exists l,
    value (fetch_synonyms_from_powo powo_url w) = Ok (Some l)
    /\ printed (trace (fetch_synonyms_from_powo powo_url w)) = [].
Proof.
  intros Hget Hst Hsoup Hsec Hlist.
  destruct (@find_some_exists soup "section" "id" "synonyms" Hsec)
    as [sec E1].
  destruct (find_some_below _ _ _ _ E1) as [Hb Hm].
  destruct (@find_some_exists sec "ul" "class" "c-synonym-list"
              (Hlist sec Hb Hm)) as [ul E2].
  rewrite fetch_synonyms_from_powo_run. cbv zeta. rewrite Hget.
  unfold synonyms_of_response, synonyms_of_soup.
  rewrite Hst. cbn [bind result_Monad]. rewrite Hsoup.
  cbn [bind ret result_Monad]. rewrite E1, E2.
  eexists. split; reflexivity.
Qed.

(** ** More on the Driver *)

Lemma powo_url_is_not_the_sentinel (id : string) :
  (powo_prefix ++ id =? "Not Found") = false.
Proof. reflexivity. Qed.

(** What a turn of the loop on a text cell leaves: one record, and the
    events that record stands for. *)
Lemma loop_body_summary (row : Series) (results : list ResultRecord)
  (w : World) :
  species_is_text row ->
  exists r w' t,
    loop_body row results w = (Ok (results ++ [r])%list, w', t)
    /\ Ok (Species r) = species_name_of row
    /\ sentinel_or_url r
    /\ resolver_calls t = [Species r]
    /\ extractor_calls t = record_url r
    /\ sleeps t = map (fun _ => 2%Z) (record_url r)
    /\ requests t = record_requests r
    /\ written t = [] /\ reads t = [].
Proof.
  intros H. destruct (species_name_of_text H) as (s & _ & Hn).
  pose proof (fetch_ipni_id_total (strip s) w) as Hid.
  pose proof (loop_body_turn row results w Hn Hid) as T. cbv zeta in T.
  pose proof (@outcome_eta _ (loop_body row results w)) as Eta.
  destruct (resolved (strip s) w) as [id|] eqn:R;
    cbn [id_truthy format_id] in T.
  - destruct (id =? EmptyString) eqn:Eid; cbn [negb] in T.
    + destruct T as (V & d & D & T).
      eexists _, _, _. split; [apply (Eta _ V)|]. rewrite T, Hn.
      split; [reflexivity|]. split; [left; split; reflexivity|].
      destruct D as [->|[l ->]]; repeat split.
    + destruct T as (V & d1 & d2 & D1 & D2 & T).
      eexists _, _, _. split; [apply (Eta _ V)|]. rewrite T, Hn.
      split; [reflexivity|]. split.
      * right. exists id. apply String.eqb_neq in Eid.
        split; [exact Eid|]. split; [|reflexivity].
        apply (@fetch_ipni_id_no_colon (strip s) w). exact Hid.
      * unfold record_requests, record_url. cbn [POWO_URL Species].
        rewrite powo_url_is_not_the_sentinel.
        destruct D1 as [->|[l1 ->]], D2 as [->|[l2 ->]]; repeat split.
  - destruct T as (V & d & D & T).
    eexists _, _, _. split; [apply (Eta _ V)|]. rewrite T, Hn.
    split; [reflexivity|]. split; [left; split; reflexivity|].
    destruct D as [->|[l ->]]; repeat split.
Qed.

Lemma for_rows_summary (rows : list Series) :
  Forall species_is_text rows ->
  forall (results : list ResultRecord) (w : World),
  exists recs w' t,
    for_rows rows results w = (Ok (results ++ recs)%list, w', t)
    /\ map (fun r => Ok (Species r)) recs = map species_name_of rows
    /\ Forall sentinel_or_url recs
    /\ resolver_calls t = map Species recs
    /\ extractor_calls t = flat_map record_url recs
    /\ sleeps t = map (fun _ => 2%Z) (flat_map record_url recs)
    /\ requests t = flat_map record_requests recs
    /\ written t = [] /\ reads t = [].
Proof.
  induction 1 as [|row rest Hrow _ IH]; intros results w.
  - exists [], w, []. rewrite app_nil_r. repeat split. constructor.
  - destruct (loop_body_summary results w Hrow)
      as (r & w1 & t1 & E1 & Hr & S1 & C1 & X1 & Z1 & Q1 & W1 & R1).
    destruct (IH (results ++ [r])%list w1)
      as (recs & w2 & t2 & E2 & Hm & S2 & C2 & X2 & Z2 & Q2 & W2 & R2).
    exists (r :: recs), w2, (t1 ++ t2)%list.
    split; [|split; [|split]].
    + cbn [for_rows bind M_Monad]. rewrite E1, E2.
      rewrite <- app_assoc. reflexivity.
    + cbn [map]. rewrite Hr, Hm. reflexivity.
    + constructor; assumption.
    + unfold resolver_calls, extractor_calls, sleeps, requests, written,
        reads in *.
      rewrite !flat_map_app, C1, C2, X1, X2, Z1, Z2, Q1, Q2, W1, W2, R1, R2.
      cbn [flat_map map app]. rewrite map_app. repeat split.
Qed.

Lemma main_summary
  (input_csv output_csv : string) (w w0 : World) (df : DataFrame) :
  read_csv input_csv w = (Ok df, w0) ->
  has_column "Species" df ->
  Forall species_is_text (iterrows df) ->
  let t := trace (main input_csv output_csv w) in
  exists recs,
    written t = [(pd_DataFrame recs, output_csv)]
    /\ map (fun r => Ok (Species r)) recs = map species_name_of (iterrows df)
    /\ Forall sentinel_or_url recs
    /\ resolver_calls t = map Species recs
    /\ extractor_calls t = flat_map record_url recs
    /\ sleeps t = map (fun _ => 2%Z) (flat_map record_url recs)
    /\ requests t = flat_map record_requests recs
    /\ reads t = [input_csv].
Proof.
  intros Hread Hcol Htext. cbv zeta.
  destruct (for_rows_summary Htext [] w0)
    as (recs & w1 & t & E & Hm & S & C & X & Z & Q & W & R).
  cbn [app] in E. apply has_column_existsb in Hcol.
  exists recs.
  unfold main, pd_read_csv, df_to_csv, print, emit.
  cbn [bind M_Monad]. rewrite Hread, Hcol. cbn [negb]. rewrite E.
  unfold resolver_calls, extractor_calls, sleeps, requests, written,
    reads in *.
  destruct (to_csv (pd_DataFrame recs) output_csv w1) as [[[]|e] w2];
    cbn [trace snd]; rewrite !flat_map_app, C, X, Z, Q, W, R;
    cbn [flat_map app]; rewrite ?app_nil_r; repeat split; assumption.
Qed.

(** On a table with a column 'Species' of text cells, [main] calls the
    Resolver once for each row, in the order of the rows, on the names it
    records; it calls the Extractor on the URLs it records, in that order,
    and on nothing else; it sleeps 2 once for each of these URLs; the
    requests sent are those of these calls; the input is read once. *)
Theorem calls_and_sleeps_follow_the_records
  (input_csv output_csv : string) (w w0 : World) (df : DataFrame) :
  read_csv input_csv w = (Ok df, w0) ->
  has_column "Species" df ->
  Forall species_is_text (iterrows df) ->
  let t := trace (main input_csv output_csv w) in
  exists recs,
    written t = [(pd_DataFrame recs, output_csv)]
    /\ map (fun r => Ok (Species r)) recs = map species_name_of (iterrows df)
    /\ resolver_calls t = map Species recs
    /\ extractor_calls t = flat_map record_url recs
    /\ sleeps t = map (fun _ => 2%Z) (flat_map record_url recs)
    /\ requests t = flat_map record_requests recs
    /\ reads t = [input_csv].
Proof.
  intros Hread Hcol Htext.
  destruct (main_summary output_csv Hread Hcol Htext)
    as (recs & W & Hm & _ & C & X & Z & Q & R).
  exists recs. repeat split; assumption.
Qed.

(** On such a table every record written holds either the two sentinels
    "Not Found" and "None" together, or the URL made of the fixed prefix
    and a non-empty Identifier without colon. *)
Theorem records_hold_sentinels_or_url
  (input_csv output_csv : string) (w w0 : World) (df : DataFrame) :
  read_csv input_csv w = (Ok df, w0) ->
  has_column "Species" df ->
  Forall species_is_text (iterrows df) ->
  exists recs,
    written (trace (main input_csv output_csv w))
    = [(pd_DataFrame recs, output_csv)]
    /\ Forall sentinel_or_url recs.
Proof.
  intros Hread Hcol Htext.
  destruct (main_summary output_csv Hread Hcol Htext)
    as (recs & W & _ & S & _).
  exists recs. split; assumption.
Qed.

(** On such a table the table written has one row of three text cells for
    each input row; its columns are Species, POWO_URL, Synonyms when the
    input has a row, and it has no column at all when the input has none. *)
Theorem written_table_shape
  (input_csv output_csv : string) (w w0 : World) (df : DataFrame) :
  read_csv input_csv w = (Ok df, w0) ->
  has_column "Species" df ->
  Forall species_is_text (iterrows df) ->
  exists out,
    written (trace (main input_csv output_csv w)) = [(out, output_csv)]
    /\ List.length (values out) = List.length (values df)
    /\ Forall (fun cells => exists a b c,
                   cells = [PStr a; PStr b; PStr c]) (values out)
    /\ columns out = match values df with
                     | [] => []
                     | _ => ["Species"; "POWO_URL"; "Synonyms"]
                     end.
Proof.
  intros Hread Hcol Htext.
  destruct (main_summary output_csv Hread Hcol Htext)
    as (recs & W & Hm & _).
  exists (pd_DataFrame recs). split; [exact W|].
  assert (L : List.length recs = List.length (values df)).
  { apply (f_equal (@List.length _)) in Hm.
    rewrite !length_map in Hm. unfold iterrows in Hm.
    rewrite length_map in Hm. exact Hm. }
  cbn [pd_DataFrame values columns]. split; [|split].
  - rewrite length_map. exact L.
  - apply Forall_forall. intros cells Hc. apply in_map_iff in Hc.
    destruct Hc as (r & <- & _). eexists _, _, _. reflexivity.
  - destruct recs, (values df); try discriminate L; reflexivity.
Qed.

(** A turn of the loop records the name trimmed, and a cell that is
    already trimmed is recorded as it is. *)
Theorem recorded_name_is_trimmed
  (row : Series) (results : list ResultRecord) (w : World) (s : string) :
  loc row "Species" = Ok (PStr s) ->
  exists r,
    value (loop_body row results w) = Ok (results ++ [r])%list
    /\ Species r = strip s
    /\ trimmed (Species r)
    /\ (trimmed s -> Species r = s).
Proof.
  intros Hs.
  assert (H : species_is_text row) by (exists s; exact Hs).
  destruct (loop_body_appends results w H) as (r & w' & t & E & Hr & _).
  unfold species_name_of in Hr. rewrite Hs in Hr.
  cbn [bind result_Monad py_strip] in Hr. injection Hr as Hr.
  exists r. rewrite E, Hr. split; [reflexivity|]. split; [reflexivity|].
  split; [apply strip_trimmed | apply strip_fixed].
Qed.

Lemma loop_body_no_io (row : Series) (results : list ResultRecord)
  (w : World) :
  written (trace (loop_body row results w)) = []
  /\ reads (trace (loop_body row results w)) = [].
Proof.
  rewrite loop_body_run.
  destruct (species_name_of row) as [name|e]; [|split; reflexivity].
  cbv zeta.
  destruct (fetch_ipni_id_trace name w) as (d1 & T1 & D1).
  destruct (negb (id_truthy (resolved name w))); cbn [trace snd].
  - rewrite T1. destruct D1 as [->|[e ->]]; split; reflexivity.
  - destruct (fetch_synonyms_from_powo_trace
                (powo_prefix ++ format_id (resolved name w))
                (world_after (fetch_ipni_id name w))) as (d2 & T2 & D2).
    rewrite T1, T2.
    destruct D1 as [->|[e1 ->]], D2 as [->|[e2 ->]]; split; reflexivity.
Qed.

Lemma for_rows_no_io (rows : list Series) :
  forall (results : list ResultRecord) (w : World),
    written (trace (for_rows rows results w)) = []
    /\ reads (trace (for_rows rows results w)) = [].
Proof.
  induction rows as [|row rest IH]; intros results w; [split; reflexivity|].
  cbn [for_rows bind M_Monad].
  destruct (loop_body_no_io row results w) as [W1 R1].
  destruct (loop_body row results w) as [[[res|e] w1] t1];
    cbn [trace snd] in W1, R1; [|split; assumption].
  destruct (IH res w1) as [W2 R2].
  destruct (for_rows rest res w1) as [[r2 w2] t2].
  cbn [trace snd] in *. unfold written, reads in *.
  rewrite !flat_map_app, W1, W2, R1, R2. split; reflexivity.
Qed.

(** Whatever the table and the outside, [main] reads the input path once
    and nothing else, and writes at most once, to the output path; when it
    returns without raising, it has written. *)
Theorem main_reads_once_writes_at_most_once
  (input_csv output_csv : string) (w : World) :
  let o := main input_csv output_csv w in
  reads (trace o) = [input_csv]
  /\ (written (trace o) = []
      \/ exists recs, written (trace o) = [(pd_DataFrame recs, output_csv)])
  /\ (value o = Ok tt ->
      exists recs, written (trace o) = [(pd_DataFrame recs, output_csv)]).
Proof.
  cbv zeta. unfold main, pd_read_csv, df_to_csv, print, emit.
  cbn [bind M_Monad].
  destruct (read_csv input_csv w) as [[df|e] w0];
    [|repeat split; [left; reflexivity | discriminate]].
  destruct (negb (existsb (fun c => c =? "Species") (columns df)));
    [repeat split; [left; reflexivity | discriminate]|].
  destruct (for_rows_no_io (iterrows df) [] w0) as [W R].
  destruct (for_rows (iterrows df) [] w0) as [[[recs|e] w1] t];
    cbn [trace snd value fst] in *.
  - unfold written, reads in *.
    destruct (to_csv (pd_DataFrame recs) output_csv w1) as [[[]|e] w2];
      cbn [trace snd value fst]; rewrite !flat_map_app, W, R;
      cbn [flat_map app]; (split; [reflexivity|]);
      (split; [right; exists recs; reflexivity|]);
      intros _; exists recs; reflexivity.
  - unfold written, reads in *. rewrite !flat_map_app, W, R.
    repeat split; [left; reflexivity | discriminate].
Qed.

Lemma for_rows_stops (pre post : list Series) (bad : Series) (e : exn) :
  Forall species_is_text pre ->
  species_name_of bad = Raise e ->
  forall (results : list ResultRecord) (w : World),
  exists w' t,
    for_rows (pre ++ bad :: post) results w = (Raise e, w', t)
    /\ map Ok (resolver_calls t) = map species_name_of pre.
Proof.
  intros Hpre Hbad. induction Hpre as [|row rest Hrow _ IH];
    intros results w.
  - exists w, []. cbn [app for_rows bind M_Monad].
    rewrite loop_body_run, Hbad. split; reflexivity.
  - destruct (loop_body_summary results w Hrow)
      as (r & w1 & t1 & E1 & Hr & _ & C1 & _).
    destruct (IH (results ++ [r])%list w1) as (w2 & t2 & E2 & C2).
    exists w2, (t1 ++ t2)%list.
    cbn [app for_rows bind M_Monad]. rewrite E1, E2.
    split; [reflexivity|].
    unfold resolver_calls in *. rewrite flat_map_app, map_app, C1, C2.
    cbn [map app]. rewrite Hr. reflexivity.
Qed.

(** When a cell of the column 'Species' is not text, [main] raises the
    AttributeError of [strip] on that cell and writes nothing; the rows
    before it were processed all the same. *)
Theorem non_text_cell_aborts_the_run
  (input_csv output_csv : string) (w w0 : World) (df : DataFrame)
  (pre post : list Series) (bad : Series) (cell : pyval) :
  read_csv input_csv w = (Ok df, w0) ->
  has_column "Species" df ->
  iterrows df = (pre ++ bad :: post)%list ->
  Forall species_is_text pre ->
  loc bad "Species" = Ok cell ->
  not_text cell ->
  let o := main input_csv output_csv w in
  value o = Raise (no_attribute cell "strip")
  /\ written (trace o) = []
  /\ map Ok (resolver_calls (trace o)) = map species_name_of pre.
Proof.
  intros Hread Hcol Hrows Hpre Hloc Hcell. cbv zeta.
  assert (Hbad : species_name_of bad = Raise (no_attribute cell "strip")).
  { unfold species_name_of. rewrite Hloc. cbn [bind result_Monad].
    destruct cell; try reflexivity. exfalso. apply (Hcell s). reflexivity. }
  destruct (for_rows_no_io (iterrows df) [] w0) as [W _].
  rewrite Hrows in W.
  destruct (@for_rows_stops pre post bad _ Hpre Hbad [] w0)
    as (w1 & t & E & C).
  apply has_column_existsb in Hcol.
  unfold main, pd_read_csv. cbn [bind M_Monad].
  rewrite Hread, Hcol. cbn [negb]. rewrite Hrows, E.
  cbn [value trace fst snd].
  rewrite E in W. cbn [trace snd] in W.
  split; [reflexivity|]. split.
  - unfold written in *. rewrite flat_map_app, W. reflexivity.
  - unfold resolver_calls in *. rewrite flat_map_app. exact C.
Qed.

End Program.

(** ** The theorems on the scripted outside *)

Lemma bare_page_no_section : no_synonyms_section Mock.bare_page.
Proof.
  intros d Hd. apply In_descendants in Hd. cbn in Hd.
  repeat (destruct Hd as [<- | Hd]; [reflexivity|]). contradiction.
Defined.

Lemma absent_id_recorded_not_found_witness :
  let get := fst Mock.unknown in
  let soup := snd Mock.unknown in
  let row := Mock.row (PStr " Rosa canina ") in
  let o := loop_body get soup row [] 0 in
  (loc row "Species" = Ok (PStr " Rosa canina ")
   /\ value (fetch_ipni_id get (strip " Rosa canina ") 0) = Ok None)
  /\ value o = Ok [{| Species := "Rosa canina";
                      POWO_URL := "Not Found";
                      Synonyms := "None" |}]
  /\ extractor_calls (trace o) = []
  /\ requests (trace o) = [ipni_request "Rosa canina"].
Proof.
  cbv zeta. split; [split; reflexivity|].
  apply (@absent_id_recorded_not_found
           _ (fst Mock.unknown) (snd Mock.unknown)
           (Mock.row (PStr " Rosa canina ")) [] 0%nat " Rosa canina ");
    reflexivity.
Defined.

Lemma synonyms_joined_or_none_witness :
  let get := fst (Mock.known "urn:lsid:ipni.org:names:12345" ["A"; "B"]) in
  let soup := snd (Mock.known "urn:lsid:ipni.org:names:12345" ["A"; "B"]) in
  let row := Mock.row (PStr " Rosa canina ") in
  (loc row "Species" = Ok (PStr " Rosa canina ")
   /\ value (fetch_ipni_id get (strip " Rosa canina ") 0) = Ok (Some "12345")
   /\ "12345" <> EmptyString
   /\ value (fetch_synonyms_from_powo get soup
               (powo_prefix ++ "12345")
               (world_after (fetch_ipni_id get (strip " Rosa canina ") 0)))
      = Ok (Some ["A"; "B"]))
  /\ (exists r,
         value (loop_body get soup row [] 0) = Ok ([] ++ [r])%list
         /\ Species r = strip " Rosa canina "
         /\ POWO_URL r = powo_prefix ++ "12345"
         /\ (forall l, Some ["A"; "B"] = Some l -> l <> [] ->
                       Synonyms r = join "; " l)
         /\ (Some ["A"; "B"] = None -> Synonyms r = "None"))
     /\ synonyms_field (Some ["A"; "B"]) = "A; B".
Proof.
  cbv zeta. split.
  - repeat split; try reflexivity. discriminate.
  - apply (@synonyms_joined_or_none
             _ (fst (Mock.known "urn:lsid:ipni.org:names:12345" ["A"; "B"]))
             (snd (Mock.known "urn:lsid:ipni.org:names:12345" ["A"; "B"]))
             (Mock.row (PStr " Rosa canina ")) [] 0%nat
             " Rosa canina " "12345" (Some ["A"; "B"]));
      try reflexivity.
    discriminate.
Defined.

Lemma empty_list_recorded_as_none_witness :
  let get := fst (Mock.known "urn:lsid:ipni.org:names:12345" []) in
  let soup := snd (Mock.known "urn:lsid:ipni.org:names:12345" []) in
  let row := Mock.row (PStr "Rosa canina") in
  (loc row "Species" = Ok (PStr "Rosa canina")
   /\ value (fetch_ipni_id get (strip "Rosa canina") 0) = Ok (Some "12345")
   /\ "12345" <> EmptyString
   /\ value (fetch_synonyms_from_powo get soup
               (powo_prefix ++ "12345")
               (world_after (fetch_ipni_id get (strip "Rosa canina") 0)))
      = Ok (Some [])
   /\ (Some (@nil string) = Some [] \/ Some (@nil string) = None))
  /\ value (loop_body get soup row [] 0)
     = Ok ([] ++ [{| Species := strip "Rosa canina";
                     POWO_URL := powo_prefix ++ "12345";
                     Synonyms := "None" |}])%list.
Proof.
  cbv zeta. split.
  - repeat split; try reflexivity; [discriminate | left; reflexivity].
  - apply (@empty_list_recorded_as_none
             _ (fst (Mock.known "urn:lsid:ipni.org:names:12345" []))
             (snd (Mock.known "urn:lsid:ipni.org:names:12345" []))
             (Mock.row (PStr "Rosa canina")) [] 0%nat
             "Rosa canina" "12345" (Some []));
      try reflexivity; [discriminate | left; reflexivity].
Defined.

Lemma sleep_follows_url_construction_witness :
  let get := fst (Mock.page_down "urn:lsid:ipni.org:names:12345") in
  let soup := snd (Mock.page_down "urn:lsid:ipni.org:names:12345") in
  let row := Mock.row (PStr "Rosa canina") in
  let t := trace (loop_body get soup row [] 0) in
  (loc row "Species" = Ok (PStr "Rosa canina")
   /\ value (fetch_ipni_id get (strip "Rosa canina") 0) = Ok (Some "12345"))
  /\ sleeps t = [2%Z]
  /\ extractor_calls t = [powo_prefix ++ "12345"].
Proof.
  cbv zeta. split; [split; reflexivity|].
  pose proof (@sleep_follows_url_construction
                _ (fst (Mock.page_down "urn:lsid:ipni.org:names:12345"))
                (snd (Mock.page_down "urn:lsid:ipni.org:names:12345"))
                (Mock.row (PStr "Rosa canina")) [] 0%nat
                "Rosa canina" (Some "12345") eq_refl eq_refl) as H.
  cbv zeta in H. destruct H as (_ & _ & H & _).
  apply H. reflexivity.
Defined.

Lemma trailing_colon_id_treated_as_not_found_witness :
  let get := fst (Mock.known "urn:lsid:ipni.org:names:" ["A"; "B"]) in
  let soup := snd (Mock.known "urn:lsid:ipni.org:names:" ["A"; "B"]) in
  let row := Mock.row (PStr "Rosa canina") in
  let response :=
    Mock.json_response 200 (Mock.registry_hit "urn:lsid:ipni.org:names:") in
  let o := loop_body get soup row [] 0 in
  (loc row "Species" = Ok (PStr "Rosa canina")
   /\ get (ipni_request (strip "Rosa canina")) 0%nat = (Ok response, 1%nat)
   /\ raise_for_status response = Ok tt
   /\ first_result_id (Mock.registry_hit "urn:lsid:ipni.org:names:")
                      ("urn:lsid:ipni.org:names" ++ ":"))
  /\ value (fetch_ipni_id get (strip "Rosa canina") 0) = Ok (Some EmptyString)
  /\ value o = Ok ([] ++ [{| Species := strip "Rosa canina";
                             POWO_URL := "Not Found";
                             Synonyms := "None" |}])%list
  /\ extractor_calls (trace o) = []
  /\ printed (trace o) = ["Processing species: " ++ strip "Rosa canina";
                          "No IPNI ID found for " ++ strip "Rosa canina"].
Proof.
  cbv zeta.
  assert (F : first_result_id (Mock.registry_hit "urn:lsid:ipni.org:names:")
                              ("urn:lsid:ipni.org:names" ++ ":")).
  { eexists _, _, _. repeat split; reflexivity. }
  split; [repeat split; try reflexivity; exact F|].
  apply (@trailing_colon_id_treated_as_not_found
           _ (fst (Mock.known "urn:lsid:ipni.org:names:" ["A"; "B"]))
           (snd (Mock.known "urn:lsid:ipni.org:names:" ["A"; "B"]))
           (Mock.row (PStr "Rosa canina")) [] 0%nat 1%nat
           "Rosa canina" "urn:lsid:ipni.org:names"
           (Mock.json_response
              200 (Mock.registry_hit "urn:lsid:ipni.org:names:"))
           (Mock.registry_hit "urn:lsid:ipni.org:names:"));
    try reflexivity.
  exact F.
Defined.

Lemma mocked_registry_answer_resolved_witness :
  let get := fst (Mock.known "urn:lsid:ipni.org:names:12345" ["A"; "B"]) in
  let soup := snd (Mock.known "urn:lsid:ipni.org:names:12345" ["A"; "B"]) in
  let row := Mock.row (PStr "Rosa canina") in
  let response :=
    Mock.json_response
      200 (Mock.registry_hit "urn:lsid:ipni.org:names:12345") in
  let o := loop_body get soup row [] 0 in
  let powo_url :=
    "https://powo.science.kew.org/taxon/urn:lsid:ipni.org:names:12345" in
  (loc row "Species" = Ok (PStr "Rosa canina")
   /\ get (ipni_request (strip "Rosa canina")) 0%nat = (Ok response, 1%nat)
   /\ raise_for_status response = Ok tt)
  /\ value (fetch_ipni_id get (strip "Rosa canina") 0) = Ok (Some "12345")
  /\ extractor_calls (trace o) = [powo_url]
  /\ In (Print ("Constructed POWO URL: " ++ powo_url)) (trace o)
  /\ exists r, value o = Ok ([] ++ [r])%list
               /\ Species r = strip "Rosa canina"
               /\ POWO_URL r = powo_url.
Proof.
  cbv zeta. split; [repeat split; reflexivity|].
  apply (@mocked_registry_answer_resolved
           _ (fst (Mock.known "urn:lsid:ipni.org:names:12345" ["A"; "B"]))
           (snd (Mock.known "urn:lsid:ipni.org:names:12345" ["A"; "B"]))
           (Mock.row (PStr "Rosa canina")) [] 0%nat 1%nat "Rosa canina"
           (Mock.json_response
              200 (Mock.registry_hit "urn:lsid:ipni.org:names:12345")));
    reflexivity.
Defined.

Lemma missing_column_aborts_before_any_row_witness :
  let get := fst Mock.unknown in
  let soup := snd Mock.unknown in
  let o := main get soup (Mock.read_csv (Ok Mock.nameless_table)) Mock.to_csv
                "species_list.csv" "species_results.csv" 0 in
  ~ has_column "Species" Mock.nameless_table
  /\ value o = Raise (mkExn ValueError
                            "The input file must contain a 'Species' column.")
  /\ trace o = [ReadCsv "species_list.csv"]
  /\ written (trace o) = []
  /\ resolver_calls (trace o) = []
  /\ world_after o = 0%nat.
Proof.
  cbv zeta.
  assert (N : ~ has_column "Species" Mock.nameless_table).
  { intros [H|[H|[]]]; discriminate H. }
  split; [exact N|].
  apply (@missing_column_aborts_before_any_row
           _ (fst Mock.unknown) (snd Mock.unknown)
           (Mock.read_csv (Ok Mock.nameless_table)) Mock.to_csv
           "species_list.csv" "species_results.csv" 0%nat 0%nat
           Mock.nameless_table eq_refl N).
Defined.

Lemma one_record_for_each_text_row_witness :
  let get := fst Mock.registry_down in
  let soup := snd Mock.registry_down in
  let df := Mock.table [PStr "Rosa canina"; PStr " Malus "] in
  let o := main get soup (Mock.read_csv (Ok df)) Mock.to_csv
                "species_list.csv" "species_results.csv" 0 in
  (has_column "Species" df /\ Forall species_is_text (iterrows df))
  /\ one_record_per_row df "species_results.csv" (trace o)
  /\ (value o = Ok tt
      \/ exists recs w1,
           value o
           = fst (Mock.to_csv (pd_DataFrame recs) "species_results.csv" w1)).
Proof.
  cbv zeta.
  assert (C : has_column "Species"
                (Mock.table [PStr "Rosa canina"; PStr " Malus "]))
    by (left; reflexivity).
  assert (T : Forall species_is_text
                (iterrows (Mock.table [PStr "Rosa canina"; PStr " Malus "]))).
  { repeat constructor; eexists; reflexivity. }
  split; [split; assumption|].
  apply (@one_record_for_each_text_row
           _ (fst Mock.registry_down) (snd Mock.registry_down)
           (Mock.read_csv
              (Ok (Mock.table [PStr "Rosa canina"; PStr " Malus "])))
           Mock.to_csv "species_list.csv" "species_results.csv"
           0%nat 0%nat _ eq_refl C T).
Defined.

Lemma no_section_yields_absent_witness :
  let get := fst Mock.unknown in
  let soup := snd Mock.unknown in
  let url := powo_prefix ++ "12345" in
  (get (powo_request url) 0%nat
   = (Ok (Mock.html_response 200 "<html>...</html>"), 1%nat)
   /\ soup "<html>...</html>" "html.parser" = Ok Mock.bare_page
   /\ (no_synonyms_section Mock.bare_page
       \/ no_synonym_list Mock.bare_page))
  /\ value (fetch_synonyms_from_powo get soup url 0) = Ok None
  /\ value (fetch_synonyms_from_powo get soup url 0) <> Ok (Some []).
Proof.
  cbv zeta.
  split; [repeat split; try reflexivity; left; exact bare_page_no_section|].
  apply (@no_section_yields_absent
           _ (fst Mock.unknown) (snd Mock.unknown)
           (powo_prefix ++ "12345") 0%nat 1%nat
           (Mock.html_response 200 "<html>...</html>") Mock.bare_page
           eq_refl eq_refl (or_introl bare_page_no_section)).
Defined.

Lemma failures_yield_absent_witness :
  let get := fst Mock.registry_down in
  let soup := snd Mock.unknown in
  let get' := fst Mock.unknown in
  let url := powo_prefix ++ "12345" in
  (resolver_fails ErrorStatus (fst (get (ipni_request "Rosa canina") 0%nat))
   /\ extractor_fails soup MissingSection (fst (get' (powo_request url) 0%nat)))
  /\ (value (fetch_ipni_id get "Rosa canina" 0) = Ok None
      /\ exists d,
           trace (fetch_ipni_id get "Rosa canina" 0)
           = Call_fetch_ipni_id "Rosa canina"
               :: HttpGet (ipni_request "Rosa canina") :: d
           /\ exists e, d = [ipni_diagnostic "Rosa canina" e])
  /\ (value (fetch_synonyms_from_powo get' soup url 0) = Ok None
      /\ exists d,
           trace (fetch_synonyms_from_powo get' soup url 0)
           = Call_fetch_synonyms_from_powo url
               :: HttpGet (powo_request url) :: d
           /\ d = []).
Proof.
  cbv zeta.
  assert (R : resolver_fails ErrorStatus
                (fst (fst Mock.registry_down (ipni_request "Rosa canina")
                          0%nat)))
    by (cbn; lia).
  assert (E : extractor_fails (snd Mock.unknown) MissingSection
                (fst (fst Mock.unknown
                          (powo_request (powo_prefix ++ "12345")) 0%nat))).
  { split; [reflexivity|]. exists Mock.bare_page.
    split; [reflexivity | exact bare_page_no_section]. }
  split; [split; assumption|]. split.
  - exact (proj1 (proj2 (proj2
             (@failures_yield_absent
                _ (fst Mock.registry_down) (snd Mock.unknown)
                "Rosa canina" (powo_prefix ++ "12345") 0%nat)))
             ErrorStatus R).
  - exact (proj2 (proj2 (proj2
             (@failures_yield_absent
                _ (fst Mock.unknown) (snd Mock.unknown)
                "Rosa canina" (powo_prefix ++ "12345") 0%nat)))
             MissingSection E).
Defined.

(** ** Where the stated claims fail *)

(** C1 as stated fails.  The table has a column 'Species' and two rows; the
    second cell of that column is empty, which pandas reads as NaN.
    [row['Species'].strip()] raises AttributeError on it: [main] raises, and
    no file is written although both rows are in the table. *)
Lemma empty_cell_aborts_the_batch :
  let get := fst Mock.unknown in
  let soup := snd Mock.unknown in
  let df := Mock.table [PStr "Rosa canina"; PFloat FNaN] in
  let o := main get soup (Mock.read_csv (Ok df)) Mock.to_csv
                "species_list.csv" "species_results.csv" 0 in
  has_column "Species" df
  /\ List.length (values df) = 2%nat
  /\ value o = Raise (mkExn AttributeError
                            "'float' object has no attribute 'strip'")
  /\ written (trace o) = []
  /\ ~ one_record_per_row df "species_results.csv" (trace o).
Proof.
  cbv zeta. split; [left; reflexivity|].
  split; [reflexivity|]. split; [reflexivity|]. split; [reflexivity|].
  intros (recs & W & _). vm_compute in W. discriminate W.
Qed.

(** C4 as stated fails on the diagnostic.  An answer of the registry without
    the key "results", and a page without the synonyms section, are failures
    on which the Resolver and the Extractor return absent and print
    nothing. *)
Lemma silent_failures_print_nothing :
  let get := fst Mock.unknown in
  let soup := snd Mock.unknown in
  let url := powo_prefix ++ "12345" in
  (resolver_fails MissingResults (fst (get (ipni_request "Rosa canina") 0%nat))
   /\ value (fetch_ipni_id get "Rosa canina" 0) = Ok None
   /\ ~ diagnosed (trace (fetch_ipni_id get "Rosa canina" 0)))
  /\ (extractor_fails soup MissingSection (fst (get (powo_request url) 0%nat))
      /\ value (fetch_synonyms_from_powo get soup url 0) = Ok None
      /\ ~ diagnosed (trace (fetch_synonyms_from_powo get soup url 0))).
Proof.
  cbv zeta. split; (split; [|split; [reflexivity|]]).
  - split; [reflexivity|]. exists []. split; reflexivity.
  - intros [l H]. vm_compute in H.
    destruct H as [H|[H|[]]]; discriminate H.
  - split; [reflexivity|]. exists Mock.bare_page.
    split; [reflexivity | exact bare_page_no_section].
  - intros [l H]. vm_compute in H.
    destruct H as [H|[H|[]]]; discriminate H.
Qed.

(** ** More of the theorems on the scripted outside *)

Lemma resolver_identifier_has_no_colon_witness :
  let get := fst (Mock.known "urn:lsid:ipni.org:names:77-1" []) in
  value (fetch_ipni_id get "Rosa canina" 0) = Ok (Some "77-1")
  /\ has_colon "77-1" = false.
Proof.
  cbv zeta. split; [reflexivity|].
  apply (@resolver_identifier_has_no_colon
           _ (fst (Mock.known "urn:lsid:ipni.org:names:77-1" []))
           "Rosa canina" 0%nat "77-1").
  reflexivity.
Defined.

Lemma resolver_returns_text_after_last_colon_witness :
  let get := fst (Mock.known "urn:lsid:ipni.org:names:77-1" []) in
  let response :=
    Mock.json_response
      200 (Mock.registry_hit "urn:lsid:ipni.org:names:77-1") in
  (get (ipni_request "Rosa canina") 0%nat = (Ok response, 1%nat)
   /\ raise_for_status response = Ok tt
   /\ first_result_id (Mock.registry_hit "urn:lsid:ipni.org:names:77-1")
                      "urn:lsid:ipni.org:names:77-1"
   /\ has_colon "77-1" = false)
  /\ value (fetch_ipni_id get "Rosa canina" 0) = Ok (Some "77-1").
Proof.
  cbv zeta.
  assert (F : first_result_id
                (Mock.registry_hit "urn:lsid:ipni.org:names:77-1")
                "urn:lsid:ipni.org:names:77-1").
  { eexists _, _, _. repeat split; reflexivity. }
  split; [repeat split; try reflexivity; exact F|].
  apply (@resolver_returns_text_after_last_colon
           _ (fst (Mock.known "urn:lsid:ipni.org:names:77-1" []))
           "Rosa canina" 0%nat 1%nat
           (Mock.json_response
              200 (Mock.registry_hit "urn:lsid:ipni.org:names:77-1"))
           (Mock.registry_hit "urn:lsid:ipni.org:names:77-1")
           "urn:lsid:ipni.org:names:77-1" "77-1"
           eq_refl eq_refl eq_refl F
           (or_intror (ex_intro _ "urn:lsid:ipni.org:names" eq_refl))
           eq_refl).
Defined.

Lemma extractor_items_are_trimmed_witness :
  let get := fst (Mock.known "urn:lsid:ipni.org:names:77-1" ["A"; "B"]) in
  let soup := snd (Mock.known "urn:lsid:ipni.org:names:77-1" ["A"; "B"]) in
  value (fetch_synonyms_from_powo get soup (powo_prefix ++ "77-1") 0)
  = Ok (Some ["A"; "B"])
  /\ Forall trimmed ["A"; "B"].
Proof.
  cbv zeta. split; [reflexivity|].
  apply (@extractor_items_are_trimmed
           _ (fst (Mock.known "urn:lsid:ipni.org:names:77-1" ["A"; "B"]))
           (snd (Mock.known "urn:lsid:ipni.org:names:77-1" ["A"; "B"]))
           (powo_prefix ++ "77-1") 0%nat ["A"; "B"]).
  reflexivity.
Defined.

Lemma taxon_page_has_section :
  exists sec, Soup.Below sec (Mock.taxon_page ["A"; "B"])
              /\ is_synonyms_section sec = true.
Proof.
  eexists. split.
  - apply In_descendants. cbn. do 4 right. left. reflexivity.
  - reflexivity.
Defined.

Lemma taxon_page_has_list :
  forall sec, Soup.Below sec (Mock.taxon_page ["A"; "B"]) ->
              is_synonyms_section sec = true ->
              exists u, Soup.Below u sec /\ is_synonym_list u = true.
Proof.
  intros sec Hb Hm. apply In_descendants in Hb. cbn in Hb.
  repeat (destruct Hb as [<- | Hb]; [try discriminate Hm|]);
    [|contradiction].
  eexists. split.
  - apply In_descendants. cbn. do 2 right. left. reflexivity.
  - reflexivity.
Defined.

Lemma section_and_list_yield_a_list_witness :
  let get := fst (Mock.known "urn:lsid:ipni.org:names:77-1" ["A"; "B"]) in
  let soup := snd (Mock.known "urn:lsid:ipni.org:names:77-1" ["A"; "B"]) in
  let url := powo_prefix ++ "77-1" in
  (get (powo_request url) 0%nat
   = (Ok (Mock.html_response 200 "<html>...</html>"), 1%nat)
   /\ raise_for_status (Mock.html_response 200 "<html>...</html>") = Ok tt
   /\ soup "<html>...</html>" "html.parser"
      = Ok (Mock.taxon_page ["A"; "B"]))
  /\ exists l,
       value (fetch_synonyms_from_powo get soup url 0) = Ok (Some l)
       /\ printed (trace (fetch_synonyms_from_powo get soup url 0)) = [].
Proof.
  cbv zeta. split; [repeat split|].
  apply (@section_and_list_yield_a_list
           _ (fst (Mock.known "urn:lsid:ipni.org:names:77-1" ["A"; "B"]))
           (snd (Mock.known "urn:lsid:ipni.org:names:77-1" ["A"; "B"]))
           (powo_prefix ++ "77-1") 0%nat 1%nat
           (Mock.html_response 200 "<html>...</html>")
           (Mock.taxon_page ["A"; "B"])
           eq_refl eq_refl eq_refl
           taxon_page_has_section taxon_page_has_list).
Defined.

Lemma two_rows_are_text :
  has_column "Species" (Mock.table [PStr " Rosa canina "; PStr "Malus"])
  /\ Forall species_is_text
            (iterrows (Mock.table [PStr " Rosa canina "; PStr "Malus"])).
Proof.
  split; [left; reflexivity|].
  repeat constructor; eexists; reflexivity.
Defined.

Lemma calls_and_sleeps_follow_the_records_witness :
  let get := fst (Mock.known "urn:lsid:ipni.org:names:77-1" ["A"; "B"]) in
  let soup := snd (Mock.known "urn:lsid:ipni.org:names:77-1" ["A"; "B"]) in
  let df := Mock.table [PStr " Rosa canina "; PStr "Malus"] in
  let t := trace (main get soup (Mock.read_csv (Ok df)) Mock.to_csv
                       "species_list.csv" "species_results.csv" 0) in
  (has_column "Species" df /\ Forall species_is_text (iterrows df))
  /\ exists recs,
       written t = [(pd_DataFrame recs, "species_results.csv")]
       /\ map (fun r => Ok (Species r)) recs
          = map species_name_of (iterrows df)
       /\ resolver_calls t = map Species recs
       /\ extractor_calls t = flat_map record_url recs
       /\ sleeps t = map (fun _ => 2%Z) (flat_map record_url recs)
       /\ requests t = flat_map record_requests recs
       /\ reads t = ["species_list.csv"].
Proof.
  cbv zeta. split; [exact two_rows_are_text|].
  apply (@calls_and_sleeps_follow_the_records
           _ (fst (Mock.known "urn:lsid:ipni.org:names:77-1" ["A"; "B"]))
           (snd (Mock.known "urn:lsid:ipni.org:names:77-1" ["A"; "B"]))
           (Mock.read_csv
              (Ok (Mock.table [PStr " Rosa canina "; PStr "Malus"])))
           Mock.to_csv "species_list.csv" "species_results.csv"
           0%nat 0%nat _ eq_refl
           (proj1 two_rows_are_text) (proj2 two_rows_are_text)).
Defined.

Lemma records_hold_sentinels_or_url_witness :
  let get := fst Mock.registry_down in
  let soup := snd Mock.registry_down in
  let df := Mock.table [PStr " Rosa canina "; PStr "Malus"] in
  (has_column "Species" df /\ Forall species_is_text (iterrows df))
  /\ exists recs,
       written (trace (main get soup (Mock.read_csv (Ok df)) Mock.to_csv
                            "species_list.csv" "species_results.csv" 0))
       = [(pd_DataFrame recs, "species_results.csv")]
       /\ Forall sentinel_or_url recs.
Proof.
  cbv zeta. split; [exact two_rows_are_text|].
  apply (@records_hold_sentinels_or_url
           _ (fst Mock.registry_down) (snd Mock.registry_down)
           (Mock.read_csv
              (Ok (Mock.table [PStr " Rosa canina "; PStr "Malus"])))
           Mock.to_csv "species_list.csv" "species_results.csv"
           0%nat 0%nat _ eq_refl
           (proj1 two_rows_are_text) (proj2 two_rows_are_text)).
Defined.

Lemma written_table_shape_witness :
  let get := fst Mock.unknown in
  let soup := snd Mock.unknown in
  let df := Mock.table [] in
  (has_column "Species" df /\ Forall species_is_text (iterrows df))
  /\ exists out,
       written (trace (main get soup (Mock.read_csv (Ok df)) Mock.to_csv
                            "species_list.csv" "species_results.csv" 0))
       = [(out, "species_results.csv")]
       /\ List.length (values out) = List.length (values df)
       /\ Forall (fun cells => exists a b c,
                      cells = [PStr a; PStr b; PStr c]) (values out)
       /\ columns out = [].
Proof.
  cbv zeta.
  assert (C : has_column "Species" (Mock.table [])) by (left; reflexivity).
  assert (T : Forall species_is_text (iterrows (Mock.table [])))
    by constructor.
  split; [split; assumption|].
  apply (@written_table_shape
           _ (fst Mock.unknown) (snd Mock.unknown)
           (Mock.read_csv (Ok (Mock.table [])))
           Mock.to_csv "species_list.csv" "species_results.csv"
           0%nat 0%nat _ eq_refl C T).
Defined.

Lemma recorded_name_is_trimmed_witness :
  let get := fst Mock.unknown in
  let soup := snd Mock.unknown in
  let row := Mock.row (PStr "  Rosa canina ") in
  loc row "Species" = Ok (PStr "  Rosa canina ")
  /\ exists r,
       value (loop_body get soup row [] 0) = Ok ([] ++ [r])%list
       /\ Species r = strip "  Rosa canina "
       /\ trimmed (Species r)
       /\ (trimmed "  Rosa canina " -> Species r = "  Rosa canina ").
Proof.
  cbv zeta. split; [reflexivity|].
  apply (@recorded_name_is_trimmed
           _ (fst Mock.unknown) (snd Mock.unknown)
           (Mock.row (PStr "  Rosa canina ")) [] 0%nat "  Rosa canina "
           eq_refl).
Defined.

Lemma main_reads_once_writes_at_most_once_witness :
  let get := fst Mock.unknown in
  let soup := snd Mock.unknown in
  let o := main get soup (Mock.read_csv (Ok (Mock.table [PStr "Malus"])))
                Mock.to_csv "species_list.csv" "species_results.csv" 0 in
  value o = Ok tt
  /\ exists recs,
       written (trace o) = [(pd_DataFrame recs, "species_results.csv")].
Proof.
  cbv zeta. split; [reflexivity|].
  apply (proj2 (proj2
           (@main_reads_once_writes_at_most_once
              _ (fst Mock.unknown) (snd Mock.unknown)
              (Mock.read_csv (Ok (Mock.table [PStr "Malus"])))
              Mock.to_csv "species_list.csv" "species_results.csv" 0%nat))).
  reflexivity.
Defined.

Lemma non_text_cell_aborts_the_run_witness :
  let get := fst Mock.unknown in
  let soup := snd Mock.unknown in
  let df := Mock.table [PStr "Rosa canina"; PInt 42; PStr "Malus"] in
  let o := main get soup (Mock.read_csv (Ok df)) Mock.to_csv
                "species_list.csv" "species_results.csv" 0 in
  (has_column "Species" df
   /\ iterrows df
      = ([Mock.row (PStr "Rosa canina")]
           ++ Mock.row (PInt 42) :: [Mock.row (PStr "Malus")])%list
   /\ Forall species_is_text [Mock.row (PStr "Rosa canina")]
   /\ loc (Mock.row (PInt 42)) "Species" = Ok (PInt 42)
   /\ not_text (PInt 42))
  /\ value o = Raise (no_attribute (PInt 42) "strip")
  /\ written (trace o) = []
  /\ map Ok (resolver_calls (trace o))
     = map species_name_of [Mock.row (PStr "Rosa canina")].
Proof.
  cbv zeta.
  assert (C : has_column "Species"
                (Mock.table [PStr "Rosa canina"; PInt 42; PStr "Malus"]))
    by (left; reflexivity).
  assert (T : Forall species_is_text [Mock.row (PStr "Rosa canina")])
    by (repeat constructor; eexists; reflexivity).
  assert (N : not_text (PInt 42)) by (intros s H; discriminate H).
  split; [repeat split; assumption|].
  apply (@non_text_cell_aborts_the_run
           _ (fst Mock.unknown) (snd Mock.unknown)
           (Mock.read_csv
              (Ok (Mock.table [PStr "Rosa canina"; PInt 42; PStr "Malus"])))
           Mock.to_csv "species_list.csv" "species_results.csv"
           0%nat 0%nat _
           [Mock.row (PStr "Rosa canina")] [Mock.row (PStr "Malus")]
           (Mock.row (PInt 42)) (PInt 42)
           eq_refl C eq_refl T eq_refl N).
Defined.
